(** * My_MQTT_PubSub.ino: an ESP8266 sketch bridging a pushbutton and an LED
      to an MQTT broker.

    The sketch is a sequential program that talks to three libraries
    (ESP8266WiFi, PubSubClient, Bounce2) and to the board (pins, serial
    port, delay).  It is embedded as a state-and-failure monad over a
    [World]: the state of everything outside the sketch ([env], abstract,
    behind the [Platform] interface), the levels last written to the pins,
    whether a callback has been handed to the MQTT client, and the [trace]
    of every call the sketch made, in program order, with the value the
    call returned.  The two [while] loops of the sketch have no bound, so
    they run on fuel and report [Spin] when it runs out.

    The libraries are not part of the sketch.  What is assumed of them is
    their interface: every call returns before the next statement runs
    (the sketch has one thread and installs no interrupt handler), and the
    MQTT client calls the registered callback from inside [client.loop()]
    and from nowhere else.  Their answers are left open: a theorem stated
    over [Platform] holds for every way the network, the broker and the
    button may behave.

    The unused globals [lastMsg], [msg] and [value] are left out. *)

From Stdlib Require Import ZArith List String Ascii Bool Lia.
From Stdlib.Strings Require Import Byte.
Import ListNotations.
Open Scope string_scope.
Open Scope list_scope.
Open Scope Z_scope.

(** ** Data *)

(** Arduino's [LOW] and [HIGH]. *)
Inductive Level : Type := LOW | HIGH.

(** Arduino's [INPUT] and [OUTPUT]. *)
Inductive PinDir : Type := INPUT | OUTPUT.

(** The two overloads of [PubSubClient::connect] the sketch uses. *)
Inductive ConnectArgs : Type :=
| ConnectId (id : string)
| ConnectIdUserPass (id user pass : string).

(** What [callback] is called with: [char* topic], [byte* payload],
    [unsigned int length].  [in_payload] is the memory that can be read
    through the pointer, starting at [payload[0]]; [in_length] is the number
    of bytes of it that belong to the message. *)
Record Inbound : Type := mkInbound {
  in_topic : string;
  in_payload : list byte;
  in_length : Z
}.

(** Arguments of [Serial.print] / [Serial.println]. *)
Inductive Printable : Type :=
| PStr (s : string)
| PChar (c : byte)
| PInt (n : Z)
| PAddr (ip : Z).

(** One entry per call that leaves the sketch (or, for [CallbackInvoked],
    enters it), with the result the callee gave back. *)
Inductive Event : Type :=
| SerialBegin (baud : Z)
| SerialPrint (p : Printable)
| SerialPrintln (p : option Printable)
| SerialPrintf (fmt arg : string)
| PinMode (pin : Z) (d : PinDir)
| DigitalWrite (pin : Z) (l : Level)
| Delay (ms : Z)
| BouncerAttach (pin : Z)
| BouncerInterval (ms : Z)
| BouncerUpdate (changed : bool)
| BouncerRose (r : bool)
| BouncerFell (r : bool)
| WiFiHostname (name : string)
| WiFiMode (m : Z)
| WiFiBegin (ssid pass : string)
| WiFiStatus (st : Z)
| WiFiLocalIP (ip : Z)
| ClientConnect (a : ConnectArgs) (ok : bool)
| ClientConnected (r : bool)
| ClientSetCallback
| ClientPublish (topic payload : string) (ok : bool)
| ClientSubscribe (topic : string) (ok : bool)
| ClientState (st : Z)
| ClientLoop
| CallbackInvoked (m : Inbound).

(** The macros of "credentials.h", which is not part of the sources. *)
Record Credentials : Type := mkCredentials {
  WIFI_SSID : string;
  WIFI_PASSWORD : string;
  WIFI_HOSTNAME : string;
  MQTT_SERVER : string;
  MQTT_IN_TOPIC : string;
  MQTT_OUT_TOPIC : string;
  MQTT_USERNAME : string;
  MQTT_PASSWORD : string;
  MQTT_CLIENT_ID : string
}.

(** The macros and enumerators the sketch takes from the board package. *)
Record Board : Type := mkBoard {
  LED_BUILTIN : Z;
  BUILTIN_LED : Z;
  WIFI_STA : Z;
  WL_CONNECTED : Z
}.

(** The libraries and the hardware, as the sketch sees them: every call
    may change the outside world and (when the C++ call returns a value)
    yields one.  [client_poll] is [PubSubClient::loop]: it yields the
    PUBLISH packets it hands to the registered callback during that call. *)
Class Platform (Env : Type) : Type := {
  wifi_hostname : string -> Env -> Env;
  wifi_mode : Z -> Env -> Env;
  wifi_begin : string -> string -> Env -> Env;
  wifi_status : Env -> Z * Env;
  wifi_localIP : Env -> Z * Env;
  client_connect : ConnectArgs -> Env -> bool * Env;
  client_connected : Env -> bool * Env;
  client_publish : string -> string -> Env -> bool * Env;
  client_subscribe : string -> Env -> bool * Env;
  client_state : Env -> Z * Env;
  client_poll : Env -> list Inbound * Env;
  bouncer_update : Env -> bool * Env;
  bouncer_rose : Env -> bool * Env;
  bouncer_fell : Env -> bool * Env;
  pass_time : Z -> Env -> Env
}.

(** The C escape [\n]. *)
Definition nl : string := String "010"%char EmptyString.

(** [int] is 32 bits wide on the ESP8266. *)
Definition INT_MAX : Z := 2147483647.

(** Conversion of an [int] to [unsigned int], as the comparison
    [i < length] does in [callback]. *)
Definition to_unsigned (i : Z) : Z := i mod 2 ^ 32.

Definition set_pin (pins : Z -> option Level) (pin : Z) (l : Level)
  : Z -> option Level :=
  fun q => if q =? pin then Some l else pins q.

(** ** The monad *)

Section Sketch.

Context {Env : Type} `{Platform Env}.
Variable cred : Credentials.
Variable board : Board.

Record World : Type := mkWorld {
  env : Env;
  pins : Z -> option Level;
  callback_set : bool;
  trace : list Event
}.

Inductive Outcome (A : Type) : Type :=
| Done (a : A) (w : World)
| Fault (w : World)
| Spin (w : World).

Arguments Done {A} a w.
Arguments Fault {A} w.
Arguments Spin {A} w.

Definition M (A : Type) : Type := World -> Outcome A.

Definition ret {A : Type} (a : A) : M A := fun w => Done a w.

Definition bind {A B : Type} (m : M A) (k : A -> M B) : M B :=
  fun w =>
    match m w with
    | Done a w1 => k a w1
    | Fault w1 => Fault w1
    | Spin w1 => Spin w1
    end.

Notation "x <- m ;; k" := (bind m (fun x => k))
  (at level 61, m at next level, right associativity).
Notation "m ;; k" := (bind m (fun _ => k))
  (at level 61, right associativity).

(** Undefined behaviour of the C++ program. *)
Definition fault {A : Type} : M A := fun w => Fault w.

Definition log (w : World) (ev : Event) : list Event := trace w ++ [ev].

Definition emit (ev : Event) : M unit :=
  fun w => Done tt (mkWorld (env w) (pins w) (callback_set w) (log w ev)).

(** A library call that returns a value. *)
Definition call {A : Type} (op : Env -> A * Env) (ev : A -> Event) : M A :=
  fun w =>
    let r := op (env w) in
    Done (fst r) (mkWorld (snd r) (pins w) (callback_set w) (log w (ev (fst r)))).

(** A library call whose result the sketch cannot see. *)
Definition call_ (op : Env -> Env) (ev : Event) : M unit :=
  fun w => Done tt (mkWorld (op (env w)) (pins w) (callback_set w) (log w ev)).

(** [while (cond) { body }] *)
Fixpoint while (fuel : nat) (cond : M bool) (body : M unit) : M unit :=
  match fuel with
  | O => fun w => Spin w
  | S fuel' =>
      b <- cond ;;
      if b then body ;; while fuel' cond body else ret tt
  end.

(** [iterates cond body n w w'] : from [w], the loop test holds and the body
    runs to its end [n] times in a row, which leads to [w']. *)
Inductive iterates (cond : M bool) (body : M unit)
  : nat -> World -> World -> Prop :=
| iterates_O (w : World) : iterates cond body O w w
| iterates_S (n : nat) (w w1 w2 w3 : World) :
    cond w = Done true w1 ->
    body w1 = Done tt w2 ->
    iterates cond body n w2 w3 ->
    iterates cond body (S n) w w3.

Definition total_test (cond : M bool) : Prop :=
  forall w : World, exists (b : bool) (w1 : World), cond w = Done b w1.

Definition total_body (body : M unit) : Prop :=
  forall w : World, exists w1 : World, body w = Done tt w1.

(** The world in which a run ended, however it ended. *)
Definition world_of {A : Type} (o : Outcome A) : World :=
  match o with
  | Done _ w => w
  | Fault w => w
  | Spin w => w
  end.

(** [i++] on an [int]: overflow is undefined. *)
Definition int_incr (i : Z) : M Z :=
  if i <? INT_MAX then ret (i + 1) else fault.

(** [for (int i = start; cond(i); i++) { body(i) }] *)
Fixpoint for_int (fuel : nat) (i : Z) (cond : Z -> bool) (body : Z -> M unit)
  : M unit :=
  match fuel with
  | O => fun w => Spin w
  | S fuel' =>
      if cond i
      then body i ;; i' <- int_incr i ;; for_int fuel' i' cond body
      else ret tt
  end.

(** [payload[i]]: reading where there is no memory is undefined. *)
Definition load (payload : list byte) (i : Z) : M byte :=
  if i <? 0 then fault
  else match nth_error payload (Z.to_nat i) with
       | Some c => ret c
       | None => fault
       end.

(** ** Board and library calls *)

Definition Serial_begin (baud : Z) : M unit := emit (SerialBegin baud).
Definition Serial_print (p : Printable) : M unit := emit (SerialPrint p).
Definition Serial_println (p : Printable) : M unit :=
  emit (SerialPrintln (Some p)).
Definition Serial_println0 : M unit := emit (SerialPrintln None).
Definition Serial_printf (fmt arg : string) : M unit :=
  emit (SerialPrintf fmt arg).

Definition pinMode (pin : Z) (d : PinDir) : M unit := emit (PinMode pin d).

Definition digitalWrite (pin : Z) (l : Level) : M unit :=
  fun w =>
    Done tt (mkWorld (env w) (set_pin (pins w) pin l) (callback_set w)
               (log w (DigitalWrite pin l))).

Definition delay (ms : Z) : M unit := call_ (pass_time ms) (Delay ms).

Definition bouncer_attach (pin : Z) : M unit := emit (BouncerAttach pin).
Definition bouncer_interval (ms : Z) : M unit := emit (BouncerInterval ms).
Definition bouncer_update_ : M bool := call bouncer_update BouncerUpdate.
Definition bouncer_rose_ : M bool := call bouncer_rose BouncerRose.
Definition bouncer_fell_ : M bool := call bouncer_fell BouncerFell.

Definition WiFi_hostname (name : string) : M unit :=
  call_ (wifi_hostname name) (WiFiHostname name).
Definition WiFi_mode (m : Z) : M unit := call_ (wifi_mode m) (WiFiMode m).
Definition WiFi_begin (ssid pass : string) : M unit :=
  call_ (wifi_begin ssid pass) (WiFiBegin ssid pass).
Definition WiFi_status : M Z := call wifi_status WiFiStatus.
Definition WiFi_localIP : M Z := call wifi_localIP WiFiLocalIP.

Definition client_connect_ (a : ConnectArgs) : M bool :=
  call (client_connect a) (ClientConnect a).
Definition client_connected_ : M bool := call client_connected ClientConnected.
Definition client_publish_ (topic payload : string) : M bool :=
  call (client_publish topic payload) (ClientPublish topic payload).
Definition client_subscribe_ (topic : string) : M bool :=
  call (client_subscribe topic) (ClientSubscribe topic).
Definition client_state_ : M Z := call client_state ClientState.

Definition client_setCallback : M unit :=
  fun w => Done tt (mkWorld (env w) (pins w) true (log w ClientSetCallback)).

(** ** The sketch *)

Definition ledPin : Z := LED_BUILTIN board.
Definition buttonPin : Z := 13.
Definition baud_rate : Z := 115200.
Definition wifi_ssid : string := WIFI_SSID cred.
Definition wifi_password : string := WIFI_PASSWORD cred.
Definition wifi_hostname_ : string := WIFI_HOSTNAME cred.
Definition mqtt_server : string := MQTT_SERVER cred.
Definition mqtt_in_topic : string := MQTT_IN_TOPIC cred.
Definition mqtt_out_topic : string := MQTT_OUT_TOPIC cred.
Definition mqtt_username : string := MQTT_USERNAME cred.
Definition mqtt_password : string := MQTT_PASSWORD cred.
Definition mqtt_clientID : string := MQTT_CLIENT_ID cred.

Definition callback (topic : string) (payload : list byte) (length : Z)
  : M unit :=
  Serial_print (PStr "Message arrived [") ;;
  Serial_print (PStr topic) ;;
  Serial_print (PStr "] ") ;;
  for_int (S (Z.to_nat length)) 0 (fun i => to_unsigned i <? length)
    (fun i => c <- load payload i ;; Serial_print (PChar c)) ;;
  Serial_println0 ;;
  c <- load payload 0 ;;
  if Byte.eqb c x31
  then digitalWrite (BUILTIN_LED board) LOW
  else digitalWrite (BUILTIN_LED board) HIGH.

Definition setup_wifi_cond : M bool :=
  st <- WiFi_status ;; ret (negb (st =? WL_CONNECTED board)).

Definition setup_wifi_body : M unit :=
  delay 500 ;; Serial_print (PStr ".").

Definition setup_wifi (fuel : nat) : M unit :=
  Serial_begin baud_rate ;;
  Serial_print (PStr "Connecting to ") ;;
  Serial_println (PStr wifi_ssid) ;;
  WiFi_hostname wifi_hostname_ ;;
  Serial_printf (String.append "Wi-Fi hostname: %s" nl) wifi_hostname_ ;;
  WiFi_mode (WIFI_STA board) ;;
  WiFi_begin wifi_ssid wifi_password ;;
  while fuel setup_wifi_cond setup_wifi_body ;;
  Serial_println0 ;;
  Serial_println (PStr "WiFi connected") ;;
  Serial_print (PStr "IP address: ") ;;
  ip <- WiFi_localIP ;;
  Serial_println (PAddr ip) ;;
  Serial_println0.

Definition setup_mqtt : M unit :=
  ok <- client_connect_
          (ConnectIdUserPass mqtt_clientID mqtt_username mqtt_password) ;;
  if ok then
    Serial_println (PStr "Connected to MQTT Broker!") ;;
    Serial_print (PStr "MQTT Broker IP: ") ;;
    Serial_println (PStr mqtt_server) ;;
    Serial_print (PStr "MQTT Client ID: ") ;;
    Serial_println (PStr mqtt_clientID) ;;
    Serial_println0 ;;
    client_setCallback ;;
    _ <- client_publish_ mqtt_out_topic "connected" ;;
    _ <- client_subscribe_ mqtt_in_topic ;;
    ret tt
  else
    Serial_println (PStr "Connection to MQTT Broker failed...").

Definition setup (fuel : nat) : M unit :=
  pinMode ledPin OUTPUT ;;
  pinMode buttonPin INPUT ;;
  digitalWrite ledPin HIGH ;;
  bouncer_attach buttonPin ;;
  bouncer_interval 5 ;;
  setup_wifi fuel ;;
  setup_mqtt.

Definition button : M unit :=
  _ <- bouncer_update_ ;;
  rose <- bouncer_rose_ ;;
  if rose then
    digitalWrite ledPin LOW ;;
    sent <- client_publish_ mqtt_out_topic "Button pressed!" ;;
    if sent then
      Serial_println (PStr "Button pushed and message sent!")
    else
      Serial_println
        (PStr "Message failed to send. Reconnecting to MQTT Broker and trying again") ;;
      _ <- client_connect_
             (ConnectIdUserPass mqtt_clientID mqtt_username mqtt_password) ;;
      delay 10 ;;
      _ <- client_publish_ mqtt_out_topic "Button pressed!" ;;
      ret tt
  else
    fell <- bouncer_fell_ ;;
    if fell then digitalWrite ledPin HIGH else ret tt.

Definition reconnect_cond : M bool :=
  c <- client_connected_ ;; ret (negb c).

Definition reconnect_body : M unit :=
  Serial_print (PStr "Attempting MQTT reconnection...") ;;
  ok <- client_connect_ (ConnectId mqtt_clientID) ;;
  if ok then
    Serial_println (PStr "connected") ;;
    _ <- client_publish_ mqtt_out_topic "reconnected" ;;
    _ <- client_subscribe_ mqtt_in_topic ;;
    ret tt
  else
    Serial_print (PStr "MQTT connection failed, Error code: ") ;;
    st <- client_state_ ;;
    Serial_println (PInt st) ;;
    Serial_println (PStr "  ...will try again after 5 seconds.") ;;
    delay 5000.

Definition reconnect (fuel : nat) : M unit :=
  while fuel reconnect_cond reconnect_body.

(** [PubSubClient::loop], seen from the sketch: the library hands each
    PUBLISH packet it has read to the function given to [setCallback], and
    to nobody when none was given. *)
Fixpoint deliver (msgs : list Inbound) : M unit :=
  match msgs with
  | [] => ret tt
  | m :: rest =>
      emit (CallbackInvoked m) ;;
      callback (in_topic m) (in_payload m) (in_length m) ;;
      deliver rest
  end.

Definition client_loop_ : M unit :=
  msgs <- call client_poll (fun _ => ClientLoop) ;;
  fun w => if callback_set w then deliver msgs w else Done tt w.

Definition loop (fuel : nat) : M unit :=
  c <- client_connected_ ;;
  (if negb c then reconnect fuel else ret tt) ;;
  button ;;
  client_loop_.

(** The Arduino core calls [loop()] again and again once [setup()] has
    returned; [ticks n fuel] is the first [n] of these calls. *)
Fixpoint ticks (n fuel : nat) : M unit :=
  match n with
  | O => ret tt
  | S k => loop fuel ;; ticks k fuel
  end.

(** The environment after the calls [button] makes on a rising edge. *)
Definition rising_env (e2 : Env) : Env :=
  let first := client_publish mqtt_out_topic "Button pressed!" e2 in
  if fst first then snd first
  else
    snd (client_publish mqtt_out_topic "Button pressed!"
           (pass_time 10
              (snd (client_connect
                      (ConnectIdUserPass mqtt_clientID mqtt_username
                         mqtt_password) (snd first))))).

(** The world after the statements of [setup_wifi] that come before its
    loop. *)
Definition after_wifi_begin (w : World) : World :=
  mkWorld
    (wifi_begin wifi_ssid wifi_password
       (wifi_mode (WIFI_STA board) (wifi_hostname wifi_hostname_ (env w))))
    (pins w) (callback_set w)
    (trace w ++
       [SerialBegin baud_rate;
        SerialPrint (PStr "Connecting to ");
        SerialPrintln (Some (PStr wifi_ssid));
        WiFiHostname wifi_hostname_;
        SerialPrintf (String.append "Wi-Fi hostname: %s" nl) wifi_hostname_;
        WiFiMode (WIFI_STA board);
        WiFiBegin wifi_ssid wifi_password]).

(** What [setup_wifi] prints after its loop, for the address [ip]. *)
Definition wifi_report (ip : Z) : list Event :=
  [SerialPrintln None;
   SerialPrintln (Some (PStr "WiFi connected"));
   SerialPrint (PStr "IP address: ");
   WiFiLocalIP ip;
   SerialPrintln (Some (PAddr ip));
   SerialPrintln None].

(** The world after the statements of [setup_wifi] that follow its loop. *)
Definition after_wifi_report (w : World) : World :=
  mkWorld (snd (wifi_localIP (env w))) (pins w) (callback_set w)
    (trace w ++ wifi_report (fst (wifi_localIP (env w)))).

End Sketch.

Arguments World Env : clear implicits.
Arguments Outcome Env A : clear implicits.
Arguments M Env A : clear implicits.
Arguments Done {Env A} a w.
Arguments Fault {Env A} w.
Arguments Spin {Env A} w.
Arguments mkWorld {Env} env pins callback_set trace.
Arguments env {Env} w.
Arguments pins {Env} w.
Arguments callback_set {Env} w.
Arguments trace {Env} w.

(** ** Two concrete outside worlds *)

(** A device with no network: the link never comes up, every broker call
    fails, the button never moves, no message arrives. *)
#[export] Instance Offline : Platform unit := {
  wifi_hostname := fun _ e => e;
  wifi_mode := fun _ e => e;
  wifi_begin := fun _ _ e => e;
  wifi_status := fun e => (6, e);
  wifi_localIP := fun e => (0, e);
  client_connect := fun _ e => (false, e);
  client_connected := fun e => (false, e);
  client_publish := fun _ _ e => (false, e);
  client_subscribe := fun _ e => (false, e);
  client_state := fun e => (-2, e);
  client_poll := fun e => ([], e);
  bouncer_update := fun e => (false, e);
  bouncer_rose := fun e => (false, e);
  bouncer_fell := fun e => (false, e);
  pass_time := fun _ e => e
}.

(** A scripted world: each kind of call answers with the next entry of its
    list, and with a failure once the list is used up. *)
Record Script : Type := mkScript {
  s_status : list Z;
  s_connect : list bool;
  s_connected : list bool;
  s_publish : list bool;
  s_subscribe : list bool;
  s_rose : list bool;
  s_fell : list bool;
  s_inbound : list (list Inbound)
}.

Definition next {A : Type} (d : A) (l : list A) : A * list A :=
  match l with
  | [] => (d, [])
  | x :: rest => (x, rest)
  end.

#[export] Instance Scripted : Platform Script := {
  wifi_hostname := fun _ e => e;
  wifi_mode := fun _ e => e;
  wifi_begin := fun _ _ e => e;
  wifi_status := fun e =>
    let r := next 6 (s_status e) in
    (fst r, mkScript (snd r) (s_connect e) (s_connected e) (s_publish e)
              (s_subscribe e) (s_rose e) (s_fell e) (s_inbound e));
  wifi_localIP := fun e => (0, e);
  client_connect := fun _ e =>
    let r := next false (s_connect e) in
    (fst r, mkScript (s_status e) (snd r) (s_connected e) (s_publish e)
              (s_subscribe e) (s_rose e) (s_fell e) (s_inbound e));
  client_connected := fun e =>
    let r := next false (s_connected e) in
    (fst r, mkScript (s_status e) (s_connect e) (snd r) (s_publish e)
              (s_subscribe e) (s_rose e) (s_fell e) (s_inbound e));
  client_publish := fun _ _ e =>
    let r := next false (s_publish e) in
    (fst r, mkScript (s_status e) (s_connect e) (s_connected e) (snd r)
              (s_subscribe e) (s_rose e) (s_fell e) (s_inbound e));
  client_subscribe := fun _ e =>
    let r := next false (s_subscribe e) in
    (fst r, mkScript (s_status e) (s_connect e) (s_connected e) (s_publish e)
              (snd r) (s_rose e) (s_fell e) (s_inbound e));
  client_state := fun e => (-2, e);
  client_poll := fun e =>
    let r := next [] (s_inbound e) in
    (fst r, mkScript (s_status e) (s_connect e) (s_connected e) (s_publish e)
              (s_subscribe e) (s_rose e) (s_fell e) (snd r));
  bouncer_update := fun e => (false, e);
  bouncer_rose := fun e =>
    let r := next false (s_rose e) in
    (fst r, mkScript (s_status e) (s_connect e) (s_connected e) (s_publish e)
              (s_subscribe e) (snd r) (s_fell e) (s_inbound e));
  bouncer_fell := fun e =>
    let r := next false (s_fell e) in
    (fst r, mkScript (s_status e) (s_connect e) (s_connected e) (s_publish e)
              (s_subscribe e) (s_rose e) (snd r) (s_inbound e));
  pass_time := fun _ e => e
}.

Definition quiet : Script := mkScript [] [] [] [] [] [] [] [].

Definition cred0 : Credentials :=
  mkCredentials "ssid" "secret" "esp" "10.0.0.2" "inTopic" "outTopic"
    "user" "pass" "esp8266".

(** The values of the ESP8266 core for a board whose LED is on GPIO 2. *)
Definition board0 : Board := mkBoard 2 2 1 3.

Definition boot {Env : Type} (e : Env) : World Env :=
  mkWorld e (fun _ => None) false [].


(** The button goes down, the first publish fails, the connect and the
    second publish succeed. *)
Definition pressed_lost : Script :=
  mkScript [] [true] [] [false; true] [] [true] [] [].

(** The session is up and the button goes down; the first publish fails,
    the connect and the second publish succeed. *)
Definition active_pressed_lost : Script :=
  mkScript [] [true] [true] [false; true] [] [true] [] [].

(** The button goes up. *)
Definition released : Script :=
  mkScript [] [] [] [] [] [false] [true] [].

(** The broker accepts the connect, the publish and the subscription. *)
Definition broker_up : Script :=
  mkScript [] [true] [] [true] [true] [] [] [].

(** The link comes up at the third status request. *)
Definition link_third : Script :=
  mkScript [6; 6; 3] [] [] [] [] [] [] [].

(** The session is down; the first connect fails, the second succeeds and
    the session is then reported connected. *)
Definition session_second : Script :=
  mkScript [] [false; true] [false; false; true] [true] [true] [] [] [].

(** The session is down; the connect succeeds but the session is reported
    down once more before it is reported connected. *)
Definition session_flaps : Script :=
  mkScript [] [true; true] [false; false; true] [true; true] [true; true]
    [] [] [].

(** A tick with the session up, the button going down and one message
    "1" waiting. *)
Definition busy_tick : Script :=
  mkScript [] [] [true] [true] [] [true] []
    [[mkInbound "inTopic" [x31] 1]].

Definition booted {Env : Type} (e : Env) : World Env :=
  mkWorld e (fun _ => None) true [].

(** Where two rounds of [reconnect] leave a device that has no network. *)
Definition offline_after_two : World unit :=
  world_of (reconnect cred0 2 (boot tt)).

(** ** Reading traces *)

(** The publish attempts of a trace, oldest first. *)
Fixpoint publish_attempts (t : list Event) : list (string * string * bool) :=
  match t with
  | [] => []
  | ClientPublish topic payload ok :: rest =>
      (topic, payload, ok) :: publish_attempts rest
  | _ :: rest => publish_attempts rest
  end.

(** The session connects of a trace, oldest first. *)
Fixpoint connect_attempts (t : list Event) : list (ConnectArgs * bool) :=
  match t with
  | [] => []
  | ClientConnect a ok :: rest => (a, ok) :: connect_attempts rest
  | _ :: rest => connect_attempts rest
  end.

(** The levels written to one pin, oldest first. *)
Fixpoint pin_writes (pin : Z) (t : list Event) : list Level :=
  match t with
  | [] => []
  | DigitalWrite p l :: rest =>
      if p =? pin then l :: pin_writes pin rest else pin_writes pin rest
  | _ :: rest => pin_writes pin rest
  end.

(** Calls to the MQTT client. *)
Definition is_client_call (ev : Event) : bool :=
  match ev with
  | ClientConnect _ _ | ClientConnected _ | ClientSetCallback
  | ClientPublish _ _ _ | ClientSubscribe _ _ | ClientState _
  | ClientLoop => true
  | _ => false
  end.

(** Calls that ask about the wireless link. *)
Definition is_link_call (ev : Event) : bool :=
  match ev with
  | WiFiStatus _ => true
  | _ => false
  end.

Definition is_delivery (ev : Event) : bool :=
  match ev with
  | CallbackInvoked _ => true
  | _ => false
  end.

(** What [callback] can do: print, and write a pin. *)
Definition is_callback_effect (ev : Event) : bool :=
  match ev with
  | SerialPrint _ | SerialPrintln _ | DigitalWrite _ _ | CallbackInvoked _ =>
      true
  | _ => false
  end.

(** The property C3 words as: before each session connect, [reconnect]
    has looked at the state of the wireless link. *)
Definition link_checked_before_connects (t : list Event) : Prop :=
  forall (before after : list Event) (a : ConnectArgs) (ok : bool),
    t = before ++ ClientConnect a ok :: after ->
    existsb is_link_call before = true.

Definition is_publish (ev : Event) : bool :=
  match ev with
  | ClientPublish _ _ _ => true
  | _ => false
  end.

(** The waits of a trace, in milliseconds, oldest first. *)
Fixpoint delays (t : list Event) : list Z :=
  match t with
  | [] => []
  | Delay ms :: rest => ms :: delays rest
  | _ :: rest => delays rest
  end.

Definition total_delay (t : list Event) : Z := fold_right Z.add 0 (delays t).

(** The subscriptions asked for in a trace, oldest first. *)
Fixpoint subscribe_attempts (t : list Event) : list (string * bool) :=
  match t with
  | [] => []
  | ClientSubscribe topic ok :: rest => (topic, ok) :: subscribe_attempts rest
  | _ :: rest => subscribe_attempts rest
  end.

(** How many session connects of a trace were answered with [ok]. *)
Definition count_connects (ok : bool) (t : list Event) : nat :=
  List.length (filter (fun a => Bool.eqb (snd a) ok) (connect_attempts t)).

Definition is_set_callback (ev : Event) : bool :=
  match ev with
  | ClientSetCallback => true
  | _ => false
  end.

(** Every pin write of the trace goes to [p1] or to [p2]. *)
Definition writes_within (p1 p2 : Z) (t : list Event) : Prop :=
  forall (pin : Z) (l : Level),
    In (DigitalWrite pin l) t -> pin = p1 \/ pin = p2.

(** A message all of whose [in_length] bytes are in the buffer, with at
    least one byte of buffer behind the pointer. *)
Definition whole_message (m : Inbound) : Prop :=
  0 <= in_length m <= Z.of_nat (List.length (in_payload m)) /\
  in_length m <= INT_MAX /\
  in_payload m <> [].

(** [w'] differs from [w] by prints and by writes to the pin [led] only. *)
Definition printed_and_lit {Env : Type} (led : Z) (w w' : World Env) : Prop :=
  env w' = env w /\
  callback_set w' = callback_set w /\
  (forall q : Z, q <> led -> pins w' q = pins w q) /\
  exists d : list Event,
    trace w' = trace w ++ d /\
    forallb is_callback_effect d = true /\
    writes_within led led d.

(** From [w] to [w'] no callback was registered or dropped, no pin but the
    two LED names was written, and no message reached the callback unless
    one was registered in [w]. *)
Definition led_only {Env : Type} (board : Board) (w w' : World Env) : Prop :=
  callback_set w' = callback_set w /\
  (forall q : Z,
     q <> LED_BUILTIN board -> q <> BUILTIN_LED board ->
     pins w' q = pins w q) /\
  exists delta : list Event,
    trace w' = trace w ++ delta /\
    filter is_set_callback delta = [] /\
    writes_within (LED_BUILTIN board) (BUILTIN_LED board) delta /\
    (callback_set w = false -> filter is_delivery delta = []).

(** Three messages waiting at once: "1", "0x", "1". *)
Definition burst : Script :=
  mkScript [] [] [] [] [] [] []
    [[mkInbound "inTopic" [x31] 1; mkInbound "inTopic" [x30; x78] 2;
      mkInbound "inTopic" [x31; x00] 1]].

(** Broker unreachable during [setup], reachable afterwards; one message
    "1" arrives in the first tick. *)
Definition late_broker : Script :=
  mkScript [3] [false; true] [false; false; true] [true] [true] [] []
    [[mkInbound "inTopic" [x31] 1]].

(** The session is up, the button rests, nothing arrives. *)
Definition at_rest : Script :=
  mkScript [] [] [true] [] [] [] [] [].

(** The link comes up at the second status request and the broker accepts
    everything. *)
Definition boot_up : Script :=
  mkScript [6; 3] [true] [] [true] [true] [] [] [].

(** Two ticks with the session up: the button goes down and a message
    "1" arrives in the first. *)
Definition two_ticks : Script :=
  mkScript [] [] [true; true] [true] [] [true] []
    [[mkInbound "inTopic" [x31] 1]].

(** Where [setup] leaves a device whose broker was unreachable. *)
Definition after_failed_setup : World Script :=
  world_of (setup cred0 board0 1 (boot late_broker)).

(** ** Shapes of traces *)

Section Shapes.

Variable cred : Credentials.
Variable board : Board.

(** The level [callback] writes for a first payload byte [c]. *)
Definition led_level (c : byte) : Level :=
  if Byte.eqb c x31 then LOW else HIGH.

(** What [button] does on a rising edge, given the answers [sent], [conn]
    and [again] of the first publish, the connect and the second publish. *)
Definition rising_trace (changed sent conn again : bool) : list Event :=
  [BouncerUpdate changed; BouncerRose true;
   DigitalWrite (LED_BUILTIN board) LOW;
   ClientPublish (MQTT_OUT_TOPIC cred) "Button pressed!" sent] ++
  (if sent then
     [SerialPrintln (Some (PStr "Button pushed and message sent!"))]
   else
     [SerialPrintln
        (Some (PStr "Message failed to send. Reconnecting to MQTT Broker and trying again"));
      ClientConnect
        (ConnectIdUserPass (MQTT_CLIENT_ID cred) (MQTT_USERNAME cred)
           (MQTT_PASSWORD cred)) conn;
      Delay 10;
      ClientPublish (MQTT_OUT_TOPIC cred) "Button pressed!" again]).

Definition falling_trace (changed : bool) : list Event :=
  [BouncerUpdate changed; BouncerRose false; BouncerFell true;
   DigitalWrite (LED_BUILTIN board) HIGH].

Definition idle_trace (changed : bool) : list Event :=
  [BouncerUpdate changed; BouncerRose false; BouncerFell false].

(** The traces of one call of [button]. *)
Inductive edge_handling : list Event -> Prop :=
| edge_rising (changed sent conn again : bool) :
    edge_handling (rising_trace changed sent conn again)
| edge_falling (changed : bool) : edge_handling (falling_trace changed)
| edge_none (changed : bool) : edge_handling (idle_trace changed).

(** Rounds of the loop of [setup_wifi]: a status that is not
    [WL_CONNECTED], half a second of delay, a dot on the serial port. *)
Inductive link_polls : nat -> list Event -> Prop :=
| link_polls_nil : link_polls O []
| link_polls_cons (n : nat) (st : Z) (t : list Event) :
    st <> WL_CONNECTED board ->
    link_polls n t ->
    link_polls (S n)
      (WiFiStatus st :: Delay 500 :: SerialPrint (PStr ".") :: t).

Definition reconnect_ok_round (pub sub : bool) : list Event :=
  [ClientConnected false;
   SerialPrint (PStr "Attempting MQTT reconnection...");
   ClientConnect (ConnectId (MQTT_CLIENT_ID cred)) true;
   SerialPrintln (Some (PStr "connected"));
   ClientPublish (MQTT_OUT_TOPIC cred) "reconnected" pub;
   ClientSubscribe (MQTT_IN_TOPIC cred) sub].

Definition reconnect_failed_round (st : Z) : list Event :=
  [ClientConnected false;
   SerialPrint (PStr "Attempting MQTT reconnection...");
   ClientConnect (ConnectId (MQTT_CLIENT_ID cred)) false;
   SerialPrint (PStr "MQTT connection failed, Error code: ");
   ClientState st;
   SerialPrintln (Some (PInt st));
   SerialPrintln (Some (PStr "  ...will try again after 5 seconds."));
   Delay 5000].

(** Rounds of the loop of [reconnect]. *)
Inductive reconnect_rounds : nat -> list Event -> Prop :=
| rounds_nil : reconnect_rounds O []
| rounds_ok (n : nat) (pub sub : bool) (t : list Event) :
    reconnect_rounds n t ->
    reconnect_rounds (S n) (reconnect_ok_round pub sub ++ t)
| rounds_failed (n : nat) (st : Z) (t : list Event) :
    reconnect_rounds n t ->
    reconnect_rounds (S n) (reconnect_failed_round st ++ t).

(** What [callback] prints and writes for the message bytes [shown] when
    the byte it finds at [payload[0]] is [c]. *)
Definition callback_trace (topic : string) (shown : list byte) (c : byte)
  : list Event :=
  [SerialPrint (PStr "Message arrived ["); SerialPrint (PStr topic);
   SerialPrint (PStr "] ")] ++
  map (fun b => SerialPrint (PChar b)) shown ++
  [SerialPrintln None; DigitalWrite (BUILTIN_LED board) (led_level c)].

(** The level the LED gets from a message whose first byte is in the
    buffer. *)
Definition message_level (m : Inbound) : Level :=
  match in_payload m with
  | c :: _ => led_level c
  | [] => HIGH
  end.

(** What the delivery of one whole message leaves on the trace. *)
Definition delivery_trace (m : Inbound) : list Event :=
  match in_payload m with
  | c :: _ =>
      CallbackInvoked m
      :: callback_trace (in_topic m)
           (firstn (Z.to_nat (in_length m)) (in_payload m)) c
  | [] => []
  end.

End Shapes.

Section Facts.

Context {Env : Type} `{Platform Env}.
Variable cred : Credentials.
Variable board : Board.

Abbreviation full_login :=
  (ConnectIdUserPass (mqtt_clientID cred) (mqtt_username cred)
     (mqtt_password cred)).
Abbreviation out_topic := (mqtt_out_topic cred).
Abbreviation in_topic_ := (mqtt_in_topic cred).

Ltac flat := repeat (progress (rewrite <- ?app_assoc; simpl)).

Ltac step_with E := unfold bind, call, call_, emit, ret, log; simpl;
  rewrite E; simpl.

(** *** setup_mqtt *)

(** C5. When [client.connect(id, user, password)] in [setup_mqtt] succeeds,
    the sketch registers [callback], then publishes "connected" on the
    outbound topic (once), then subscribes to the inbound topic, and makes
    no other client call. *)
Theorem setup_mqtt_success (w : World Env) (e1 : Env) :
  client_connect full_login (env w) = (true, e1) ->
  let pub := client_publish out_topic "connected" e1 in
  let sub := client_subscribe in_topic_ (snd pub) in
  exists w' delta,
    setup_mqtt cred w = Done tt w' /\
    trace w' = trace w ++ delta /\
    delta =
      [ClientConnect full_login true;
       SerialPrintln (Some (PStr "Connected to MQTT Broker!"));
       SerialPrint (PStr "MQTT Broker IP: ");
       SerialPrintln (Some (PStr (mqtt_server cred)));
       SerialPrint (PStr "MQTT Client ID: ");
       SerialPrintln (Some (PStr (mqtt_clientID cred)));
       SerialPrintln None;
       ClientSetCallback;
       ClientPublish out_topic "connected" (fst pub);
       ClientSubscribe in_topic_ (fst sub)] /\
    callback_set w' = true /\
    publish_attempts delta = [(out_topic, "connected", fst pub)] /\
    env w' = snd sub.
Proof.
  intros E pub sub.
  eexists. eexists. split.
  - unfold setup_mqtt, client_connect_. step_with E.
    unfold client_setCallback, client_publish_, client_subscribe_,
      Serial_println, Serial_print, Serial_println0.
    unfold bind, call, emit, ret, log. simpl. reflexivity.
  - simpl. flat. repeat split; reflexivity.
Qed.

(** C6. When that connect fails, [setup_mqtt] only logs the failure and
    returns: no callback is registered, nothing is published, nothing is
    subscribed, and the client is not called again. *)
Theorem setup_mqtt_failure (w : World Env) (e1 : Env) :
  client_connect full_login (env w) = (false, e1) ->
  setup_mqtt cred w =
    Done tt
      (mkWorld e1 (pins w) (callback_set w)
         (trace w ++
            [ClientConnect full_login false;
             SerialPrintln (Some (PStr "Connection to MQTT Broker failed..."))])).
Proof.
  intros E.
  unfold setup_mqtt, client_connect_. step_with E.
  unfold Serial_println, emit, log. simpl. flat. reflexivity.
Qed.

(** *** button *)

Ltac unfold_calls :=
  unfold bouncer_update_, bouncer_rose_, bouncer_fell_, client_publish_,
    client_connect_, client_subscribe_, client_connected_, client_state_,
    client_setCallback, WiFi_status, WiFi_localIP, WiFi_hostname, WiFi_mode,
    WiFi_begin, delay, digitalWrite, pinMode, Serial_println, Serial_print,
    Serial_println0, Serial_printf, Serial_begin, bouncer_attach,
    bouncer_interval;
  unfold bind, call, call_, emit, ret, log; simpl.

Lemma button_rising_run (w : World Env) (changed : bool) (e1 e2 : Env) :
  bouncer_update (env w) = (changed, e1) ->
  bouncer_rose e1 = (true, e2) ->
  let first := client_publish out_topic "Button pressed!" e2 in
  let conn := client_connect full_login (snd first) in
  let again :=
    client_publish out_topic "Button pressed!" (pass_time 10 (snd conn)) in
  button cred board w =
    Done tt
      (mkWorld (rising_env cred e2) (set_pin (pins w) (ledPin board) LOW)
         (callback_set w)
         (trace w ++
            rising_trace cred board changed (fst first) (fst conn) (fst again))).
Proof.
  intros E1 E2 first conn again.
  unfold button. unfold_calls. rewrite E1. simpl. rewrite E2. simpl.
  unfold rising_env, rising_trace.
  fold first. destruct (fst first) eqn:Ef; simpl; flat; reflexivity.
Qed.

Lemma button_falling_run (w : World Env) (changed : bool) (e1 e2 e3 : Env) :
  bouncer_update (env w) = (changed, e1) ->
  bouncer_rose e1 = (false, e2) ->
  bouncer_fell e2 = (true, e3) ->
  button cred board w =
    Done tt
      (mkWorld e3 (set_pin (pins w) (ledPin board) HIGH) (callback_set w)
         (trace w ++ falling_trace board changed)).
Proof.
  intros E1 E2 E3.
  unfold button. unfold_calls. rewrite E1. simpl. rewrite E2. simpl.
  rewrite E3. simpl. unfold falling_trace. flat. reflexivity.
Qed.

Lemma button_idle_run (w : World Env) (changed : bool) (e1 e2 e3 : Env) :
  bouncer_update (env w) = (changed, e1) ->
  bouncer_rose e1 = (false, e2) ->
  bouncer_fell e2 = (false, e3) ->
  button cred board w =
    Done tt
      (mkWorld e3 (pins w) (callback_set w)
         (trace w ++ idle_trace changed)).
Proof.
  intros E1 E2 E3.
  unfold button. unfold_calls. rewrite E1. simpl. rewrite E2. simpl.
  rewrite E3. simpl. unfold idle_trace. flat. reflexivity.
Qed.

(** [button] always returns, and its trace is one of the three shapes. *)
Lemma button_total (w : World Env) :
  exists w' delta,
    button cred board w = Done tt w' /\
    trace w' = trace w ++ delta /\
    edge_handling cred board delta.
Proof.
  destruct (bouncer_update (env w)) as [changed e1] eqn:E1.
  destruct (bouncer_rose e1) as [[|] e2] eqn:E2.
  - eexists. eexists. split; [apply (button_rising_run w changed e1 e2 E1 E2)|].
    split; [reflexivity | constructor].
  - destruct (bouncer_fell e2) as [[|] e3] eqn:E3.
    + eexists. eexists.
      split; [apply (button_falling_run w changed e1 e2 e3 E1 E2 E3)|].
      split; [reflexivity | constructor].
    + eexists. eexists.
      split; [apply (button_idle_run w changed e1 e2 e3 E1 E2 E3)|].
      split; [reflexivity | constructor].
Qed.

(** C9. On a falling edge [button] writes HIGH to the LED pin and calls
    neither [publish] nor any other function of the MQTT client. *)
Theorem button_falling_only_led
    (w : World Env) (changed : bool) (e1 e2 e3 : Env) :
  bouncer_update (env w) = (changed, e1) ->
  bouncer_rose e1 = (false, e2) ->
  bouncer_fell e2 = (true, e3) ->
  exists w' delta,
    button cred board w = Done tt w' /\
    trace w' = trace w ++ delta /\
    delta =
      [BouncerUpdate changed; BouncerRose false; BouncerFell true;
       DigitalWrite (ledPin board) HIGH] /\
    pins w' = set_pin (pins w) (ledPin board) HIGH /\
    env w' = e3 /\
    callback_set w' = callback_set w /\
    publish_attempts delta = [] /\
    filter is_client_call delta = [].
Proof.
  intros E1 E2 E3.
  eexists. eexists.
  split; [apply (button_falling_run w changed e1 e2 e3 E1 E2 E3)|].
  simpl. repeat split; reflexivity.
Qed.

(** *** callback *)

Lemma to_unsigned_small (i : Z) : 0 <= i <= INT_MAX -> to_unsigned i = i.
Proof.
  unfold to_unsigned, INT_MAX. intros Hi.
  apply Z.mod_small. change (2 ^ 32) with 4294967296. lia.
Qed.

Lemma world_eta (w : World Env) :
  mkWorld (env w) (pins w) (callback_set w) (trace w ++ []) = w.
Proof. destruct w; simpl; rewrite app_nil_r; reflexivity. Qed.

(** The printing loop of [callback], started at index [length shown_before]
    of a buffer that holds the whole message. *)
Lemma print_loop_run (payload : list byte) (length : Z) :
  length <= INT_MAX ->
  forall (todo before rest : list byte) (fuel : nat) (w : World Env),
    payload = before ++ todo ++ rest ->
    length = Z.of_nat (List.length before + List.length todo) ->
    (List.length todo < fuel)%nat ->
    for_int fuel (Z.of_nat (List.length before))
      (fun i => to_unsigned i <? length)
      (fun i => bind (load payload i) (fun c => Serial_print (PChar c))) w =
    Done tt
      (mkWorld (env w) (pins w) (callback_set w)
         (trace w ++ map (fun b => SerialPrint (PChar b)) todo)).
Proof.
  intros Hmax todo.
  induction todo as [|c todo IH]; intros before rest fuel w Hp Hl Hf.
  - destruct fuel as [|fuel]; [simpl in Hf; lia|].
    cbn [for_int]. rewrite to_unsigned_small by (simpl in Hl; lia).
    replace (Z.of_nat (List.length before) <? length) with false
      by (symmetry; apply Z.ltb_ge; simpl in Hl; lia).
    unfold ret. simpl. rewrite world_eta. reflexivity.
  - destruct fuel as [|fuel]; [simpl in Hf; lia|].
    cbn [for_int]. cbn [List.length] in Hl, Hf.
    rewrite to_unsigned_small by lia.
    replace (Z.of_nat (List.length before) <? length) with true
      by (symmetry; apply Z.ltb_lt; lia).
    unfold bind at 1 2. unfold load.
    replace (Z.of_nat (List.length before) <? 0) with false
      by (symmetry; apply Z.ltb_ge; lia).
    assert (Hn : nth_error payload (List.length before) = Some c).
    { rewrite Hp, nth_error_app2 by lia. rewrite Nat.sub_diag. reflexivity. }
    rewrite Nat2Z.id, Hn.
    unfold ret at 1. unfold Serial_print, emit, log. cbn [env pins callback_set trace].
    unfold bind. unfold int_incr.
    replace (Z.of_nat (List.length before) <? INT_MAX) with true
      by (symmetry; apply Z.ltb_lt; lia).
    unfold ret at 1.
    replace (Z.of_nat (List.length before) + 1)
      with (Z.of_nat (List.length (before ++ [c])))
      by (rewrite length_app; simpl; lia).
    rewrite (IH (before ++ [c]) rest fuel).
    + cbn [env pins callback_set trace map]. flat. reflexivity.
    + rewrite Hp. rewrite <- app_assoc. reflexivity.
    + rewrite length_app. simpl. lia.
    + lia.
Qed.

(** [callback] on a message whose [length] bytes are all in the buffer. *)
Lemma callback_run (topic : string) (payload : list byte) (length : Z)
    (c : byte) (w : World Env) :
  0 <= length <= Z.of_nat (List.length payload) ->
  length <= INT_MAX ->
  nth_error payload 0 = Some c ->
  callback board topic payload length w =
    Done tt
      (mkWorld (env w)
         (set_pin (pins w) (BUILTIN_LED board) (led_level c))
         (callback_set w)
         (trace w ++
            callback_trace board topic (firstn (Z.to_nat length) payload) c)).
Proof.
  intros Hlen Hmax Hc.
  unfold callback.
  unfold bind at 1 2 3. unfold Serial_print at 1 2 3. unfold emit, log.
  cbn [env pins callback_set trace].
  unfold bind at 1.
  rewrite (print_loop_run payload length Hmax
             (firstn (Z.to_nat length) payload) []
             (skipn (Z.to_nat length) payload)).
  - unfold bind, Serial_println0, emit, log, load.
    cbn [env pins callback_set trace Z.ltb Z.compare Z.to_nat].
    rewrite Hc. unfold ret, callback_trace, led_level.
    destruct (Byte.eqb c x31); unfold digitalWrite, log;
      cbn [env pins callback_set trace]; flat; reflexivity.
  - simpl. symmetry. apply firstn_skipn.
  - rewrite length_firstn. simpl. lia.
  - rewrite length_firstn. lia.
Qed.

Lemma pin_writes_app (pin : Z) (a b : list Event) :
  pin_writes pin (a ++ b) = pin_writes pin a ++ pin_writes pin b.
Proof.
  induction a as [|ev a IH]; [reflexivity|].
  destruct ev; simpl; try apply IH.
  destruct (pin0 =? pin); simpl; rewrite IH; reflexivity.
Qed.

Lemma pin_writes_chars (pin : Z) (l : list byte) :
  pin_writes pin (map (fun b => SerialPrint (PChar b)) l) = [].
Proof. induction l as [|b l IH]; [reflexivity | exact IH]. Qed.

Lemma callback_trace_writes (topic : string) (shown : list byte) (c : byte) :
  pin_writes (BUILTIN_LED board) (callback_trace board topic shown c) =
    [led_level c].
Proof.
  unfold callback_trace. rewrite !pin_writes_app, pin_writes_chars.
  simpl. rewrite Z.eqb_refl. reflexivity.
Qed.

(** C1. For a message with at least one payload byte, [callback] writes
    LOW to the LED pin when the first byte is the character 1 and HIGH for
    any other first byte; the level is a function of that byte alone, so two
    messages with the same first byte get the same level. *)
Theorem callback_first_byte_decides
    (topic : string) (c : byte) (more : list byte) (length : Z)
    (w : World Env) :
  0 < length <= Z.of_nat (List.length (c :: more)) ->
  length <= INT_MAX ->
  exists w' delta,
    callback board topic (c :: more) length w = Done tt w' /\
    trace w' = trace w ++ delta /\
    pin_writes (BUILTIN_LED board) delta =
      [if Byte.eqb c x31 then LOW else HIGH] /\
    pins w' (BUILTIN_LED board) =
      Some (if Byte.eqb c x31 then LOW else HIGH) /\
    forall (topic2 : string) (more2 : list byte) (length2 : Z)
           (w2 : World Env),
      0 < length2 <= Z.of_nat (List.length (c :: more2)) ->
      length2 <= INT_MAX ->
      exists w2',
        callback board topic2 (c :: more2) length2 w2 = Done tt w2' /\
        pins w2' (BUILTIN_LED board) = pins w' (BUILTIN_LED board).
Proof.
  intros Hlen Hmax.
  eexists. eexists.
  split; [apply (callback_run topic (c :: more) length c w); [lia|lia|reflexivity]|].
  cbn [trace pins].
  split; [reflexivity|].
  split; [apply callback_trace_writes|].
  split; [unfold set_pin; rewrite Z.eqb_refl; reflexivity|].
  intros topic2 more2 length2 w2 Hlen2 Hmax2.
  eexists.
  split; [apply (callback_run topic2 (c :: more2) length2 c w2);
          [lia|lia|reflexivity]|].
  cbn [pins]. unfold set_pin. rewrite Z.eqb_refl. reflexivity.
Qed.

(** C4 (what the code does). [callback] reads [payload[0]] whatever
    [length] is.  For a message of length 0 the byte it reads is not part
    of the message: when the memory behind the pointer holds the character
    1 the LED pin is written LOW, when it holds anything else the pin is
    written HIGH, and when there is no memory there the read is undefined. *)
Theorem callback_empty_payload_unguarded
    (topic : string) (w : World Env) :
  (forall (c : byte) (behind : list byte),
     exists w',
       callback board topic (c :: behind) 0 w = Done tt w' /\
       pins w' (BUILTIN_LED board) =
         Some (if Byte.eqb c x31 then LOW else HIGH)) /\
  (exists w', callback board topic [x31] 0 w = Done tt w' /\
              pins w' (BUILTIN_LED board) = Some LOW) /\
  (exists w', callback board topic [] 0 w = Fault w').
Proof.
  assert (G : forall (c : byte) (behind : list byte),
     exists w',
       callback board topic (c :: behind) 0 w = Done tt w' /\
       pins w' (BUILTIN_LED board) =
         Some (if Byte.eqb c x31 then LOW else HIGH)).
  { intros c behind. eexists.
    split; [apply (callback_run topic (c :: behind) 0 c w);
            [simpl; lia | unfold INT_MAX; lia | reflexivity]|].
    cbn [pins]. unfold set_pin. rewrite Z.eqb_refl. reflexivity. }
  split; [exact G|]. split; [exact (G x31 [])|].
  eexists. unfold callback. unfold_calls. reflexivity.
Qed.

(** *** while *)

Section WhileFacts.

Variable cond : M Env bool.
Variable body : M Env unit.

Lemma while_exit (n : nat) :
  forall (fuel : nat) (w w1 w2 : World Env),
    iterates cond body n w w1 ->
    cond w1 = Done false w2 ->
    (n < fuel)%nat ->
    while fuel cond body w = Done tt w2.
Proof.
  induction n as [|n IH]; intros fuel w w1 w2 Hit Hc Hf;
    (destruct fuel as [|fuel]; [lia|]);
    inversion Hit as [|? ? wa wb ? Ha Hb Hr]; subst; cbn [while].
  - unfold bind. rewrite Hc. reflexivity.
  - unfold bind at 1. rewrite Ha. unfold bind. rewrite Hb.
    apply (IH fuel wb w1 w2); [assumption | assumption | lia].
Qed.

Lemma while_spin (fuel : nat) :
  forall (w w1 : World Env),
    iterates cond body fuel w w1 ->
    while fuel cond body w = Spin w1.
Proof.
  induction fuel as [|fuel IH]; intros w w1 Hit;
    inversion Hit as [|? ? wa wb ? Ha Hb Hr]; subst; cbn [while].
  - reflexivity.
  - unfold bind at 1. rewrite Ha. unfold bind. rewrite Hb.
    apply IH. assumption.
Qed.

Lemma while_done_inv (fuel : nat) :
  forall (w w' : World Env),
    while fuel cond body w = Done tt w' ->
    exists (n : nat) (w1 : World Env),
      (n < fuel)%nat /\ iterates cond body n w w1 /\ cond w1 = Done false w'.
Proof.
  induction fuel as [|fuel IH]; intros w w' Hrun; cbn [while] in Hrun.
  - discriminate.
  - unfold bind at 1 in Hrun.
    destruct (cond w) as [[|] w1| |] eqn:Hc; try discriminate.
    + unfold bind in Hrun.
      destruct (body w1) as [[] w2| |] eqn:Hb; try discriminate.
      destruct (IH w2 w' Hrun) as (n & w3 & Hn & Hit & Hex).
      exists (S n), w3. split; [lia|]. split; [|assumption].
      econstructor; eassumption.
    + unfold ret in Hrun. inversion Hrun; subst.
      exists O, w. split; [lia|]. split; [constructor | assumption].
Qed.

Lemma iterates_exist :
  total_test cond -> total_body body ->
  forall (n : nat) (w : World Env),
    (forall (k : nat) (w1 w2 : World Env) (b : bool),
       iterates cond body k w w1 -> cond w1 = Done b w2 -> b = true) ->
    exists w1, iterates cond body n w w1.
Proof.
  intros Ht Hb n.
  induction n as [|n IH]; intros w Hgo.
  - exists w. constructor.
  - destruct (Ht w) as (b & wa & Hc).
    assert (b = true) by (apply (Hgo O w wa b); [constructor | exact Hc]).
    subst b.
    destruct (Hb wa) as (wb & Hbody).
    destruct (IH wb) as (w1 & Hit).
    + intros k w1 w2 b Hit Hc1.
      apply (Hgo (S k) w1 w2 b); [|exact Hc1].
      econstructor; eassumption.
    + exists w1. econstructor; eassumption.
Qed.

Lemma while_spin_inv :
  total_test cond -> total_body body ->
  forall (fuel : nat) (w w' : World Env),
    while fuel cond body w = Spin w' -> iterates cond body fuel w w'.
Proof.
  intros Ht Hb fuel.
  induction fuel as [|fuel IH]; intros w w' Hrun; cbn [while] in Hrun.
  - inversion Hrun. constructor.
  - destruct (Ht w) as (b & wa & Hc).
    unfold bind at 1 in Hrun. rewrite Hc in Hrun.
    destruct b; [|discriminate].
    destruct (Hb wa) as (wb & Hbody).
    unfold bind in Hrun. rewrite Hbody in Hrun.
    econstructor; [exact Hc | exact Hbody | apply IH; exact Hrun].
Qed.

End WhileFacts.

(** *** setup_wifi *)

Lemma setup_wifi_cond_run (w : World Env) :
  setup_wifi_cond board w =
    Done (negb (fst (wifi_status (env w)) =? WL_CONNECTED board))
      (mkWorld (snd (wifi_status (env w))) (pins w) (callback_set w)
         (trace w ++ [WiFiStatus (fst (wifi_status (env w)))])).
Proof. reflexivity. Qed.

Lemma setup_wifi_body_run (w : World Env) :
  setup_wifi_body w =
    Done tt
      (mkWorld (pass_time 500 (env w)) (pins w) (callback_set w)
         (trace w ++ [Delay 500; SerialPrint (PStr ".")])).
Proof. unfold setup_wifi_body. unfold_calls. flat. reflexivity. Qed.

Lemma setup_wifi_split (fuel : nat) (w : World Env) :
  setup_wifi cred board fuel w =
    match
      while fuel (setup_wifi_cond board) setup_wifi_body
        (after_wifi_begin cred board w)
    with
    | Done _ w1 => Done tt (after_wifi_report w1)
    | Fault w1 => Fault w1
    | Spin w1 => Spin w1
    end.
Proof.
  unfold setup_wifi.
  unfold bind at 1 2 3 4 5 6 7.
  unfold Serial_begin, Serial_print at 1, Serial_println at 1, WiFi_hostname,
    Serial_printf, WiFi_mode, WiFi_begin, call_, emit, log.
  cbn [env pins callback_set trace].
  unfold bind at 1. unfold after_wifi_begin. flat.
  match goal with
  | |- match ?a with _ => _ end = match ?b with _ => _ end =>
      replace a with b by reflexivity; destruct b; try reflexivity
  end.
  unfold_calls. unfold after_wifi_report, wifi_report. flat. reflexivity.
Qed.

(** The rounds of the loop of [setup_wifi] leave [link_polls] on the
    trace and touch nothing but the environment. *)
Lemma wifi_rounds (n : nat) (w w1 : World Env) :
  iterates (setup_wifi_cond board) setup_wifi_body n w w1 ->
  exists polls,
    trace w1 = trace w ++ polls /\ link_polls board n polls.
Proof.
  induction 1 as [w|n w wa wb wc Hc Hb Hit IH].
  - exists []. rewrite app_nil_r. split; [reflexivity | constructor].
  - destruct IH as (polls & Ht & Hp).
    rewrite setup_wifi_cond_run in Hc. inversion Hc as [[Hst Hw]]. clear Hc.
    subst wa. rewrite setup_wifi_body_run in Hb.
    inversion Hb as [Hw]. clear Hb. subst wb.
    cbn [env pins callback_set trace] in *.
    eexists. split.
    + rewrite Ht. flat. reflexivity.
    + constructor; [|exact Hp].
      intros Heq. rewrite Heq, Z.eqb_refl in Hst. discriminate.
Qed.

(** While the status stays different from [WL_CONNECTED] the loop can make
    any number of rounds. *)
Lemma wifi_rounds_exist (n : nat) :
  forall w : World Env,
    (forall (k : nat) (w1 : World Env),
       iterates (setup_wifi_cond board) setup_wifi_body k w w1 ->
       fst (wifi_status (env w1)) <> WL_CONNECTED board) ->
    exists w1, iterates (setup_wifi_cond board) setup_wifi_body n w w1.
Proof.
  induction n as [|n IH]; intros w Hdown.
  - exists w. constructor.
  - assert (Hc : setup_wifi_cond board w =
                 Done true
                   (mkWorld (snd (wifi_status (env w))) (pins w)
                      (callback_set w)
                      (trace w ++ [WiFiStatus (fst (wifi_status (env w)))]))).
    { rewrite setup_wifi_cond_run.
      replace (fst (wifi_status (env w)) =? WL_CONNECTED board) with false;
        [reflexivity|].
      symmetry. apply Z.eqb_neq. apply (Hdown O w). constructor. }
    destruct (IH _ (fun k w1 Hit =>
                      Hdown (S k) w1
                        (iterates_S _ _ k w _ _ w1 Hc
                           (setup_wifi_body_run _) Hit)))
      as (w1 & Hit).
    exists w1. econstructor; [exact Hc | apply setup_wifi_body_run | exact Hit].
Qed.

(** C8. [setup_wifi] returns only after [WiFi.status()] has answered
    [WL_CONNECTED]; before that it asks again every 500 ms, as often as it
    takes: it returns as soon as the status is [WL_CONNECTED], and while
    the status never is, it never returns. *)
Theorem setup_wifi_waits_for_link (w : World Env) :
  let w0 := after_wifi_begin cred board w in
  (forall (fuel : nat) (w' : World Env),
     setup_wifi cred board fuel w = Done tt w' ->
     exists (n : nat) (polls : list Event) (ip : Z),
       link_polls board n polls /\
       trace w' =
         trace w0 ++ polls ++ WiFiStatus (WL_CONNECTED board) :: wifi_report ip) /\
  (forall (n : nat) (w1 : World Env),
     iterates (setup_wifi_cond board) setup_wifi_body n w0 w1 ->
     fst (wifi_status (env w1)) = WL_CONNECTED board ->
     forall fuel : nat, (n < fuel)%nat ->
     exists w', setup_wifi cred board fuel w = Done tt w') /\
  ((forall (n : nat) (w1 : World Env),
      iterates (setup_wifi_cond board) setup_wifi_body n w0 w1 ->
      fst (wifi_status (env w1)) <> WL_CONNECTED board) ->
   forall fuel : nat,
   exists (w' : World Env) (polls : list Event),
     setup_wifi cred board fuel w = Spin w' /\
     trace w' = trace w0 ++ polls /\
     link_polls board fuel polls).
Proof.
  intros w0. split; [|split].
  - intros fuel w' Hrun. rewrite setup_wifi_split in Hrun. fold w0 in Hrun.
    destruct (while fuel (setup_wifi_cond board) setup_wifi_body w0)
      as [[] w2| |] eqn:Hw; try discriminate.
    inversion Hrun as [Hw']. clear Hrun.
    destruct (while_done_inv _ _ fuel w0 w2 Hw) as (n & w1 & Hn & Hit & Hc).
    destruct (wifi_rounds n w0 w1 Hit) as (polls & Ht & Hp).
    rewrite setup_wifi_cond_run in Hc. inversion Hc as [[Hst Hw2]]. clear Hc.
    exists n, polls. eexists. split; [exact Hp|].
    unfold after_wifi_report. cbn [env pins callback_set trace].
    rewrite Ht. flat.
    apply negb_false_iff in Hst. apply Z.eqb_eq in Hst. rewrite Hst.
    reflexivity.
  - intros n w1 Hit Hup fuel Hf. rewrite setup_wifi_split. fold w0.
    erewrite while_exit; [eexists; reflexivity | exact Hit | | exact Hf].
    rewrite setup_wifi_cond_run. rewrite Hup, Z.eqb_refl. reflexivity.
  - intros Hdown fuel. rewrite setup_wifi_split. fold w0.
    destruct (wifi_rounds_exist fuel w0 Hdown) as (w1 & Hit).
    rewrite (while_spin _ _ fuel w0 w1 Hit).
    destruct (wifi_rounds fuel w0 w1 Hit) as (polls & Ht & Hp).
    exists w1, polls. split; [reflexivity|]. split; assumption.
Qed.

(** *** reconnect *)

Lemma reconnect_cond_run (w : World Env) :
  reconnect_cond w =
    Done (negb (fst (client_connected (env w))))
      (mkWorld (snd (client_connected (env w))) (pins w) (callback_set w)
         (trace w ++ [ClientConnected (fst (client_connected (env w)))])).
Proof. reflexivity. Qed.

Lemma reconnect_cond_total : total_test reconnect_cond.
Proof. intros w. eexists. eexists. apply reconnect_cond_run. Qed.

(** One pass through the body of the loop of [reconnect]. *)
Lemma reconnect_body_run (w : World Env) :
  exists (w' : World Env) (rest : list Event),
    reconnect_body cred w = Done tt w' /\
    trace w' = trace w ++ rest /\
    pins w' = pins w /\
    callback_set w' = callback_set w /\
    ((exists pub sub : bool,
        ClientConnected false :: rest = reconnect_ok_round cred pub sub) \/
     (exists st : Z,
        ClientConnected false :: rest = reconnect_failed_round cred st)).
Proof.
  unfold reconnect_body. unfold_calls.
  destruct (client_connect (ConnectId (mqtt_clientID cred)) (env w))
    as [[|] e1] eqn:E; simpl.
  - eexists. eexists. split; [reflexivity|]. simpl. flat.
    split; [reflexivity|]. split; [reflexivity|]. split; [reflexivity|].
    left. eexists. eexists. reflexivity.
  - eexists. eexists. split; [reflexivity|]. simpl. flat.
    split; [reflexivity|]. split; [reflexivity|]. split; [reflexivity|].
    right. eexists. reflexivity.
Qed.

Lemma reconnect_body_total : total_body (reconnect_body cred).
Proof.
  intros w. destruct (reconnect_body_run w) as (w' & rest & Hrun & _).
  exists w'. exact Hrun.
Qed.

(** The rounds of the loop of [reconnect] leave [reconnect_rounds] on the
    trace; they change neither the pins nor the registered callback. *)
Lemma reconnect_rounds_of (n : nat) (w w1 : World Env) :
  iterates reconnect_cond (reconnect_body cred) n w w1 ->
  exists rounds,
    trace w1 = trace w ++ rounds /\
    reconnect_rounds cred n rounds /\
    pins w1 = pins w /\
    callback_set w1 = callback_set w.
Proof.
  induction 1 as [w|n w wa wb wc Hc Hb Hit IH].
  - exists []. rewrite app_nil_r. repeat split. constructor.
  - destruct IH as (rounds & Ht & Hr & Hp & Hcb).
    rewrite reconnect_cond_run in Hc. inversion Hc as [[Hst Hw]]. clear Hc.
    apply negb_true_iff in Hst.
    destruct (reconnect_body_run wa) as (wb' & rest & Hrun & Htb & Hpb & Hcbb & Hshape).
    rewrite Hrun in Hb. inversion Hb. subst wb'. clear Hb.
    subst wa. cbn [env pins callback_set trace] in *.
    rewrite Hst in Htb.
    exists ((ClientConnected false :: rest) ++ rounds).
    split; [rewrite Ht, Htb; flat; reflexivity|].
    split; [|split; congruence].
    destruct Hshape as [(pub & sub & Heq)|(st & Heq)]; rewrite Heq;
      constructor; exact Hr.
Qed.

Lemma rounds_connect_by_id (n : nat) (rounds : list Event) :
  reconnect_rounds cred n rounds ->
  Forall (fun a => fst a = ConnectId (mqtt_clientID cred))
    (connect_attempts rounds).
Proof.
  induction 1 as [|n pub sub t Hr IH|n st t Hr IH]; simpl.
  - constructor.
  - constructor; [reflexivity | exact IH].
  - constructor; [reflexivity | exact IH].
Qed.

Lemma rounds_no_link_call (n : nat) (rounds : list Event) :
  reconnect_rounds cred n rounds -> filter is_link_call rounds = [].
Proof.
  induction 1 as [|n pub sub t Hr IH|n st t Hr IH]; simpl; auto.
Qed.

Lemma rounds_no_delivery (n : nat) (rounds : list Event) :
  reconnect_rounds cred n rounds -> filter is_delivery rounds = [].
Proof.
  induction 1 as [|n pub sub t Hr IH|n st t Hr IH]; simpl; auto.
Qed.

Lemma connect_attempts_then_test (t : list Event) (r : bool) :
  connect_attempts (t ++ [ClientConnected r]) = connect_attempts t.
Proof.
  induction t as [|ev t IH]; [reflexivity|].
  destruct ev; simpl; rewrite ?IH; reflexivity.
Qed.

(** When [reconnect] returns, its trace is a number of rounds followed by
    the test that found the session connected. *)
Lemma reconnect_done_shape (fuel : nat) (w w' : World Env) :
  reconnect cred fuel w = Done tt w' ->
  exists (n : nat) (rounds : list Event),
    reconnect_rounds cred n rounds /\
    trace w' = trace w ++ rounds ++ [ClientConnected true] /\
    pins w' = pins w /\
    callback_set w' = callback_set w.
Proof.
  intros Hrun. unfold reconnect in Hrun.
  destruct (while_done_inv _ _ fuel w w' Hrun) as (n & w1 & Hn & Hit & Hc).
  destruct (reconnect_rounds_of n w w1 Hit) as (rounds & Ht & Hr & Hp & Hcb).
  rewrite reconnect_cond_run in Hc. inversion Hc as [[Hst Hw]]. clear Hc.
  apply negb_false_iff in Hst.
  exists n, rounds. cbn [env pins callback_set trace].
  rewrite Hst, Ht. flat. repeat split; assumption.
Qed.

(** When [reconnect] is still running after [fuel] rounds, its trace is
    those rounds. *)
Lemma reconnect_spin_shape (fuel : nat) (w w' : World Env) :
  reconnect cred fuel w = Spin w' ->
  exists rounds : list Event,
    reconnect_rounds cred fuel rounds /\ trace w' = trace w ++ rounds.
Proof.
  intros Hrun. unfold reconnect in Hrun.
  apply (while_spin_inv _ _ reconnect_cond_total reconnect_body_total) in Hrun.
  destruct (reconnect_rounds_of fuel w w' Hrun) as (rounds & Ht & Hr & _).
  exists rounds. split; assumption.
Qed.

(** C3 (as the code has it). [reconnect] asks the MQTT client whether the
    session is connected and returns only when the answer is yes.  Each
    round before that makes one connect with the client id alone; after a
    successful connect it publishes "reconnected" on the outbound topic
    and then subscribes to the inbound topic; after a failed one it waits
    5000 ms.  It never asks for the state of the wireless link.  It returns
    as soon as the session is reported connected, and while it never is,
    it never returns. *)
Theorem reconnect_until_session_connected (w : World Env) :
  (forall (fuel : nat) (w' : World Env),
     reconnect cred fuel w = Done tt w' ->
     exists (n : nat) (rounds : list Event),
       reconnect_rounds cred n rounds /\
       trace w' = trace w ++ rounds ++ [ClientConnected true] /\
       filter is_link_call (rounds ++ [ClientConnected true]) = [] /\
       Forall (fun a => fst a = ConnectId (mqtt_clientID cred))
         (connect_attempts (rounds ++ [ClientConnected true]))) /\
  (forall (n : nat) (w1 : World Env),
     iterates reconnect_cond (reconnect_body cred) n w w1 ->
     fst (client_connected (env w1)) = true ->
     forall fuel : nat, (n < fuel)%nat ->
     exists w', reconnect cred fuel w = Done tt w') /\
  ((forall (n : nat) (w1 : World Env),
      iterates reconnect_cond (reconnect_body cred) n w w1 ->
      fst (client_connected (env w1)) = false) ->
   forall fuel : nat,
   exists (w' : World Env) (rounds : list Event),
     reconnect cred fuel w = Spin w' /\
     trace w' = trace w ++ rounds /\
     reconnect_rounds cred fuel rounds /\
     filter is_link_call rounds = []).
Proof.
  split; [|split].
  - intros fuel w' Hrun.
    destruct (reconnect_done_shape fuel w w' Hrun) as (n & rounds & Hr & Ht & _).
    exists n, rounds. split; [exact Hr|]. split; [exact Ht|]. split.
    + rewrite filter_app, (rounds_no_link_call n rounds Hr). reflexivity.
    + rewrite connect_attempts_then_test.
      apply (rounds_connect_by_id n). exact Hr.
  - intros n w1 Hit Hup fuel Hf. unfold reconnect.
    erewrite while_exit; [eexists; reflexivity | exact Hit | | exact Hf].
    rewrite reconnect_cond_run. rewrite Hup. reflexivity.
  - intros Hdown fuel. unfold reconnect.
    destruct (iterates_exist _ _ reconnect_cond_total reconnect_body_total
                fuel w) as (w1 & Hit).
    { intros k w1 w2 b Hit Hc. rewrite reconnect_cond_run in Hc.
      inversion Hc as [[Hb Hw]]. rewrite (Hdown k w1 Hit). reflexivity. }
    rewrite (while_spin _ _ fuel w w1 Hit).
    destruct (reconnect_rounds_of fuel w w1 Hit) as (rounds & Ht & Hr & _).
    exists w1, rounds. split; [reflexivity|]. split; [exact Ht|].
    split; [exact Hr | apply (rounds_no_link_call fuel); exact Hr].
Qed.

Lemma while_never_faults (cond : M Env bool) (body : M Env unit) :
  total_test cond -> total_body body ->
  forall (fuel : nat) (w w' : World Env),
    while fuel cond body w <> Fault w'.
Proof.
  intros Ht Hb fuel.
  induction fuel as [|fuel IH]; intros w w'; cbn [while]; [discriminate|].
  destruct (Ht w) as (b & wa & Hc).
  unfold bind at 1. rewrite Hc.
  destruct b; [|discriminate].
  destruct (Hb wa) as (wb & Hbody).
  unfold bind. rewrite Hbody. apply IH.
Qed.

Lemma rounds_connect_count (n : nat) (rounds : list Event) :
  reconnect_rounds cred n rounds ->
  List.length (connect_attempts rounds) = n.
Proof.
  induction 1 as [|n pub sub t Hr IH|n st t Hr IH]; simpl; congruence.
Qed.

(** However [reconnect] ends, its trace is a number of rounds, followed
    by the test that found the session connected when it returns; with the
    session reported down at the start there is at least one round. *)
Lemma reconnect_any_shape (fuel : nat) (w : World Env) :
  exists (n : nat) (rounds tail : list Event),
    reconnect_rounds cred n rounds /\
    (tail = [] \/ tail = [ClientConnected true]) /\
    trace (world_of (reconnect cred fuel w)) = trace w ++ rounds ++ tail /\
    (fst (client_connected (env w)) = false -> (0 < fuel)%nat -> (0 < n)%nat).
Proof.
  unfold reconnect.
  destruct (while fuel reconnect_cond (reconnect_body cred) w)
    as [[] w'|w'|w'] eqn:Hrun.
  - destruct (while_done_inv _ _ fuel w w' Hrun) as (n & w1 & Hn & Hit & Hc).
    destruct (reconnect_rounds_of n w w1 Hit) as (rounds & Ht & Hr & _).
    rewrite reconnect_cond_run in Hc. inversion Hc as [[Hst Hw]].
    apply negb_false_iff in Hst.
    exists n, rounds, [ClientConnected true].
    split; [exact Hr|]. split; [right; reflexivity|].
    split; [cbn [world_of trace]; rewrite Hst, Ht; flat; reflexivity|].
    intros Hdown _. destruct n as [|n]; [|lia].
    inversion Hit; subst. congruence.
  - exfalso.
    apply (while_never_faults _ _ reconnect_cond_total reconnect_body_total
             fuel w w').
    exact Hrun.
  - apply (while_spin_inv _ _ reconnect_cond_total reconnect_body_total)
      in Hrun.
    destruct (reconnect_rounds_of fuel w w' Hrun) as (rounds & Ht & Hr & _).
    exists fuel, rounds, []. split; [exact Hr|]. split; [left; reflexivity|].
    split; [cbn [world_of]; rewrite Ht, app_nil_r; reflexivity|].
    intros _ Hf. exact Hf.
Qed.

(** C10. After a failed first publish, [button] connects with client id,
    user name and password; whatever that connect and the second publish
    answer, [button] goes on the same way and ends right after the second
    publish, without a line on the serial port.  [reconnect], however it
    ends, makes one connect in each of its rounds, at least one when it
    finds the session down, and every one of them with the client id
    alone. *)
Theorem inline_recovery_full_login_results_dropped
    (w : World Env) (changed : bool) (e1 e2 e3 : Env) :
  bouncer_update (env w) = (changed, e1) ->
  bouncer_rose e1 = (true, e2) ->
  client_publish out_topic "Button pressed!" e2 = (false, e3) ->
  let conn := client_connect full_login e3 in
  let again :=
    client_publish out_topic "Button pressed!" (pass_time 10 (snd conn)) in
  (exists w',
     button cred board w = Done tt w' /\
     env w' = snd again /\
     trace w' =
       trace w ++
       [BouncerUpdate changed; BouncerRose true;
        DigitalWrite (ledPin board) LOW;
        ClientPublish out_topic "Button pressed!" false;
        SerialPrintln
          (Some (PStr "Message failed to send. Reconnecting to MQTT Broker and trying again"));
        ClientConnect full_login (fst conn);
        Delay 10;
        ClientPublish out_topic "Button pressed!" (fst again)]) /\
  (forall (fuel : nat) (v : World Env),
   exists (n : nat) (rounds tail : list Event),
     reconnect_rounds cred n rounds /\
     (tail = [] \/ tail = [ClientConnected true]) /\
     trace (world_of (reconnect cred fuel v)) = trace v ++ rounds ++ tail /\
     List.length (connect_attempts (rounds ++ tail)) = n /\
     Forall (fun a => fst a = ConnectId (mqtt_clientID cred))
       (connect_attempts (rounds ++ tail)) /\
     (fst (client_connected (env v)) = false -> (0 < fuel)%nat ->
      (0 < n)%nat)).
Proof.
  intros E1 E2 E3 conn again. split.
  - eexists. split; [apply (button_rising_run w changed e1 e2 E1 E2)|].
    unfold rising_env, rising_trace. cbn [env trace].
    unfold mqtt_out_topic in *. rewrite E3. simpl. split; reflexivity.
  - intros fuel v.
    destruct (reconnect_any_shape fuel v)
      as (n & rounds & tail & Hr & Htail & Ht & Hn).
    exists n, rounds, tail.
    split; [exact Hr|]. split; [exact Htail|]. split; [exact Ht|].
    assert (Hca : connect_attempts (rounds ++ tail) = connect_attempts rounds).
    { destruct Htail as [E|E]; subst tail;
        [rewrite app_nil_r; reflexivity | apply connect_attempts_then_test]. }
    rewrite Hca.
    split; [apply rounds_connect_count; exact Hr|].
    split; [apply (rounds_connect_by_id n); exact Hr | exact Hn].
Qed.

(** *** loop *)

Section ForFacts.

Variable length : Z.
Variable body : Z -> M Env unit.

(** However a counting loop ends, it has only printed when its body only
    prints. *)
Lemma for_int_effects :
  (forall (i : Z) (w : World Env),
   exists d,
     trace (world_of (body i w)) = trace w ++ d /\
     forallb is_callback_effect d = true) ->
  forall (fuel : nat) (i : Z) (w : World Env),
  exists d,
    trace (world_of (for_int fuel i (fun i => to_unsigned i <? length) body w))
      = trace w ++ d /\
    forallb is_callback_effect d = true.
Proof.
  intros Hbody fuel.
  induction fuel as [|fuel IH]; intros i w; cbn [for_int].
  - exists []. simpl. rewrite app_nil_r. split; reflexivity.
  - destruct (to_unsigned i <? length).
    2:{ exists []. simpl. rewrite app_nil_r. split; reflexivity. }
    unfold bind. destruct (Hbody i w) as (d1 & Ht1 & Hd1).
    destruct (body i w) as [[] w1|w1|w1]; cbn [world_of] in *;
      try (exists d1; split; assumption).
    unfold int_incr.
    destruct (i <? INT_MAX).
    + unfold ret. destruct (IH (i + 1) w1) as (d & Ht & Hd).
      exists (d1 ++ d). rewrite Ht, Ht1. flat.
      split; [reflexivity|]. rewrite forallb_app, Hd1, Hd. reflexivity.
    + unfold fault. exists d1. split; assumption.
Qed.

(** A loop that counts up to [length] reaches its end on [length + 1]
    units of fuel. *)
Lemma for_int_ends :
  (forall (i : Z) (w w' : World Env), body i w <> Spin w') ->
  forall (fuel : nat) (i : Z) (w w' : World Env),
    0 <= i <= INT_MAX ->
    i <= Z.max 0 length ->
    Z.max 0 length - i < Z.of_nat fuel ->
    for_int fuel i (fun i => to_unsigned i <? length) body w <> Spin w'.
Proof.
  intros Hbody fuel.
  induction fuel as [|fuel IH]; intros i w w' Hi Hle Hf; cbn [for_int].
  - lia.
  - rewrite to_unsigned_small by exact Hi.
    destruct (i <? length) eqn:Hc; [|discriminate].
    apply Z.ltb_lt in Hc.
    unfold bind. pose proof (Hbody i w) as Hne.
    destruct (body i w) as [[] w1|w1|w1]; [|discriminate|].
    + unfold int_incr.
      destruct (i <? INT_MAX) eqn:Hm; [|discriminate].
      apply Z.ltb_lt in Hm. unfold ret.
      apply IH; lia.
    + exfalso. apply (Hne w1). reflexivity.
Qed.

End ForFacts.

Lemma print_byte_effects (payload : list byte) (i : Z) (w : World Env) :
  exists d,
    trace (world_of (bind (load payload i)
                       (fun c => Serial_print (PChar c)) w)) = trace w ++ d /\
    forallb is_callback_effect d = true.
Proof.
  unfold bind, load.
  destruct (i <? 0).
  { exists []. simpl. rewrite app_nil_r. split; reflexivity. }
  destruct (nth_error payload (Z.to_nat i)) as [c|].
  - exists [SerialPrint (PChar c)]. split; reflexivity.
  - exists []. simpl. rewrite app_nil_r. split; reflexivity.
Qed.

Lemma print_byte_ends (payload : list byte) (i : Z) (w w' : World Env) :
  bind (load payload i) (fun c => Serial_print (PChar c)) w <> Spin w'.
Proof.
  unfold bind, load.
  destruct (i <? 0); [discriminate|].
  destruct (nth_error payload (Z.to_nat i)); discriminate.
Qed.

Lemma callback_effects (topic : string) (payload : list byte) (length : Z)
    (w : World Env) :
  exists d,
    trace (world_of (callback board topic payload length w)) = trace w ++ d /\
    forallb is_callback_effect d = true.
Proof.
  unfold callback.
  unfold bind at 1 2 3. unfold Serial_print at 1 2 3. unfold emit, log.
  cbn [env pins callback_set trace].
  unfold bind at 1.
  match goal with
  | |- context [for_int ?f ?i ?c ?b ?v] =>
      destruct (for_int_effects length b (print_byte_effects payload) f i v)
        as (d & Ht & Hd);
      destruct (for_int f i c b v) as [[] w1|w1|w1]
  end; cbn [world_of trace] in Ht.
  - unfold bind, Serial_println0, emit, log, load.
    cbn [env pins callback_set trace Z.ltb Z.compare Z.to_nat].
    destruct (nth_error payload 0) as [c|].
    + unfold ret.
      destruct (Byte.eqb c x31); unfold digitalWrite, log;
        cbn [world_of env pins callback_set trace]; rewrite Ht; flat;
        eexists; (split; [reflexivity|]); simpl;
        rewrite forallb_app, Hd; reflexivity.
    + unfold fault. cbn [world_of trace]. rewrite Ht. flat.
      eexists. split; [reflexivity|]. simpl.
      rewrite forallb_app, Hd. reflexivity.
  - cbn [world_of]. rewrite Ht. flat. eexists. split; [reflexivity|].
    simpl. exact Hd.
  - cbn [world_of]. rewrite Ht. flat. eexists. split; [reflexivity|].
    simpl. exact Hd.
Qed.

Lemma callback_ends (topic : string) (payload : list byte) (length : Z)
    (w w' : World Env) :
  callback board topic payload length w <> Spin w'.
Proof.
  unfold callback.
  unfold bind at 1 2 3. unfold Serial_print at 1 2 3. unfold emit, log.
  cbn [env pins callback_set trace].
  unfold bind at 1.
  match goal with
  | |- context [for_int ?f ?i ?c ?b ?v] =>
      pose proof (fun v' =>
                    for_int_ends length b (print_byte_ends payload) f i v v')
        as Hne;
      destruct (for_int f i c b v) as [[] w1|w1|w1]
  end.
  - unfold bind, Serial_println0, emit, log, load.
    cbn [env pins callback_set trace Z.ltb Z.compare Z.to_nat].
    destruct (nth_error payload 0) as [c|]; [|discriminate].
    unfold ret. destruct (Byte.eqb c x31); discriminate.
  - discriminate.
  - exfalso. apply (Hne w1); [unfold INT_MAX; lia | lia | | reflexivity].
    destruct length; simpl; lia.
Qed.

Lemma deliver_effects (msgs : list Inbound) :
  forall w : World Env,
  exists d,
    trace (world_of (deliver board msgs w)) = trace w ++ d /\
    forallb is_callback_effect d = true.
Proof.
  induction msgs as [|m msgs IH]; intros w; cbn [deliver].
  - exists []. simpl. rewrite app_nil_r. split; reflexivity.
  - unfold bind at 1. unfold emit, log. unfold bind.
    match goal with
    | |- context [callback board ?t ?p ?l ?v] =>
        destruct (callback_effects t p l v) as (d & Ht & Hd);
        destruct (callback board t p l v) as [[] w1|w1|w1]
    end; cbn [world_of trace] in Ht.
    + destruct (IH w1) as (d2 & Ht2 & Hd2).
      rewrite Ht2, Ht. flat. eexists. split; [reflexivity|].
      simpl. rewrite forallb_app, Hd, Hd2. reflexivity.
    + cbn [world_of]. rewrite Ht. flat. eexists. split; [reflexivity|].
      simpl. exact Hd.
    + cbn [world_of]. rewrite Ht. flat. eexists. split; [reflexivity|].
      simpl. exact Hd.
Qed.

Lemma deliver_ends (msgs : list Inbound) :
  forall w w' : World Env, deliver board msgs w <> Spin w'.
Proof.
  induction msgs as [|m msgs IH]; intros w w'; cbn [deliver].
  - discriminate.
  - unfold bind at 1. unfold emit, log. unfold bind.
    match goal with
    | |- context [callback board ?t ?p ?l ?v] =>
        pose proof (fun v' => callback_ends t p l v v') as Hne;
        destruct (callback board t p l v) as [[] w1|w1|w1]
    end.
    + apply IH.
    + discriminate.
    + exfalso. apply (Hne w1). reflexivity.
Qed.

(** [client.loop()]: the call, then what the callbacks it runs do. *)
Lemma client_loop_effects (w : World Env) :
  exists d,
    trace (world_of (client_loop_ board w)) = trace w ++ ClientLoop :: d /\
    forallb is_callback_effect d = true.
Proof.
  unfold client_loop_. unfold bind, call, log.
  cbn [env pins callback_set trace].
  destruct (callback_set w).
  - match goal with
    | |- context [deliver board ?m ?v] =>
        destruct (deliver_effects m v) as (d & Ht & Hd)
    end.
    cbn [trace] in Ht. rewrite Ht. flat. exists d. split; [reflexivity|exact Hd].
  - exists []. split; reflexivity.
Qed.

Lemma client_loop_ends (w w' : World Env) : client_loop_ board w <> Spin w'.
Proof.
  unfold client_loop_. unfold bind, call, log.
  cbn [env pins callback_set trace].
  destruct (callback_set w); [apply deliver_ends | discriminate].
Qed.

Lemma callback_effects_no_client_call (d : list Event) :
  forallb is_callback_effect d = true -> filter is_client_call d = [].
Proof.
  induction d as [|ev d IH]; [reflexivity|].
  simpl. intros Hd. apply andb_true_iff in Hd. destruct Hd as [Hev Hd].
  destruct ev; try discriminate; simpl; apply IH; exact Hd.
Qed.

Lemma edge_no_delivery (edge : list Event) :
  edge_handling cred board edge -> filter is_delivery edge = [].
Proof.
  intros [changed sent conn again|changed|changed]; [|reflexivity..].
  destruct sent; reflexivity.
Qed.

Lemma loop_split (fuel : nat) (w : World Env) :
  loop cred board fuel w =
    let v :=
      mkWorld (snd (client_connected (env w))) (pins w) (callback_set w)
        (trace w ++ [ClientConnected (fst (client_connected (env w)))]) in
    if fst (client_connected (env w))
    then bind (button cred board) (fun _ => client_loop_ board) v
    else
      match reconnect cred fuel v with
      | Done _ w1 => bind (button cred board) (fun _ => client_loop_ board) w1
      | Fault w1 => Fault w1
      | Spin w1 => Spin w1
      end.
Proof.
  unfold loop. unfold bind at 1 2. unfold client_connected_, call, log.
  cbn [env pins callback_set trace].
  destruct (fst (client_connected (env w))); reflexivity.
Qed.

Lemma callback_effects_no_publish (d : list Event) :
  forallb is_callback_effect d = true -> publish_attempts d = [].
Proof.
  induction d as [|ev d IH]; [reflexivity|].
  simpl. intros Hd. apply andb_true_iff in Hd. destruct Hd as [Hev Hd].
  destruct ev; try discriminate; simpl; apply IH; exact Hd.
Qed.

(** C2. In a tick that finds the session connected and the button risen,
    [button] makes one publish attempt of "Button pressed!" on the outbound
    topic when that publish succeeds.  When it fails, [button] makes one
    connect, waits 10 ms and publishes once more: two attempts in all.
    Whatever the second attempt answers, nothing more is published in that
    tick: what follows is [client.loop()] and what the callback does. *)
Theorem button_rising_publish_attempts
    (fuel : nat) (v : World Env) (changed : bool) (e0 e1 e2 : Env) :
  client_connected (env v) = (true, e0) ->
  bouncer_update e0 = (changed, e1) ->
  bouncer_rose e1 = (true, e2) ->
  let first := client_publish out_topic "Button pressed!" e2 in
  let conn := client_connect full_login (snd first) in
  let again :=
    client_publish out_topic "Button pressed!" (pass_time 10 (snd conn)) in
  let w :=
    mkWorld e0 (pins v) (callback_set v) (trace v ++ [ClientConnected true]) in
  exists (w' : World Env) (delta inbound : list Event),
    button cred board w = Done tt w' /\
    trace w' = trace w ++ delta /\
    delta = rising_trace cred board changed (fst first) (fst conn) (fst again) /\
    trace (world_of (loop cred board fuel v)) =
      trace w' ++ ClientLoop :: inbound /\
    publish_attempts inbound = [] /\
    if fst first then
      publish_attempts delta = [(out_topic, "Button pressed!", true)] /\
      connect_attempts delta = []
    else
      publish_attempts delta =
        [(out_topic, "Button pressed!", false);
         (out_topic, "Button pressed!", fst again)] /\
      connect_attempts delta = [(full_login, fst conn)] /\
      exists before,
        delta =
          before ++
          [ClientConnect full_login (fst conn); Delay 10;
           ClientPublish out_topic "Button pressed!" (fst again)].
Proof.
  intros Ec E1 E2 first conn again w.
  pose proof (button_rising_run w changed e1 e2 E1 E2) as Hrun.
  cbv zeta in Hrun. fold first conn again in Hrun.
  destruct (client_loop_effects
              (mkWorld (rising_env cred e2)
                 (set_pin (pins w) (ledPin board) LOW) (callback_set w)
                 (trace w ++
                    rising_trace cred board changed (fst first) (fst conn)
                      (fst again))))
    as (inbound & Hti & Hin).
  eexists. exists (rising_trace cred board changed (fst first) (fst conn)
                     (fst again)), inbound.
  split; [exact Hrun|].
  split; [reflexivity|]. split; [reflexivity|].
  split.
  { rewrite loop_split. cbv zeta. rewrite Ec. cbn [fst snd].
    fold w. unfold bind. rewrite Hrun. exact Hti. }
  split; [apply callback_effects_no_publish; exact Hin|].
  destruct (fst first); simpl.
  - split; reflexivity.
  - split; [reflexivity|]. split; [reflexivity|].
    eexists
      [BouncerUpdate changed; BouncerRose true; DigitalWrite _ LOW;
       ClientPublish _ _ false; SerialPrintln _].
    reflexivity.
Qed.

(** C7. A tick of [loop] that returns has done three things one after the
    other: it made sure the session is connected (by [reconnect] when it
    was not), it ran [button] once, and it called [client.loop()].  The
    callback is invoked only after that last call, and nothing is published
    after it.  A tick that does not return is still in [reconnect]. *)
Theorem loop_tick_is_serial (fuel : nat) (w : World Env) :
  (forall w' : World Env,
     loop cred board fuel w = Done tt w' ->
     exists session edge inbound : list Event,
       trace w' = trace w ++ session ++ edge ++ ClientLoop :: inbound /\
       (session = [ClientConnected true] \/
        exists (n : nat) (rounds : list Event),
          reconnect_rounds cred n rounds /\
          session = ClientConnected false :: rounds ++ [ClientConnected true]) /\
       edge_handling cred board edge /\
       filter is_delivery (session ++ edge) = [] /\
       forallb is_callback_effect inbound = true /\
       filter is_client_call inbound = []) /\
  (forall w' : World Env,
     loop cred board fuel w = Spin w' ->
     exists rounds : list Event,
       reconnect_rounds cred fuel rounds /\
       trace w' = trace w ++ ClientConnected false :: rounds).
Proof.
  assert (Tail : forall (v : World Env) (o : Outcome Env unit),
            o = bind (button cred board) (fun _ => client_loop_ board) v ->
            (forall w', o <> Spin w') /\
            (forall w', o = Done tt w' ->
               exists edge inbound,
                 trace w' = trace v ++ edge ++ ClientLoop :: inbound /\
                 edge_handling cred board edge /\
                 forallb is_callback_effect inbound = true)).
  { intros v o Ho. destruct (button_total v) as (v1 & edge & Hb & Ht & He).
    unfold bind in Ho. rewrite Hb in Ho. subst o. split.
    - intros w'. apply client_loop_ends.
    - intros w' Hrun.
      destruct (client_loop_effects v1) as (d & Htd & Hd).
      rewrite Hrun in Htd. cbn [world_of] in Htd.
      exists edge, d. rewrite Htd, Ht. flat. repeat split; assumption. }
  rewrite loop_split. cbv zeta.
  destruct (fst (client_connected (env w))) eqn:Hc.
  - match goal with
    | |- context [bind _ _ ?v] =>
        destruct (Tail v _ eq_refl) as (Hns & Hdone)
    end.
    split.
    + intros w' Hrun. destruct (Hdone w' Hrun) as (edge & inbound & Ht & He & Hd).
      cbn [trace] in Ht.
      exists [ClientConnected true], edge, inbound.
      split; [rewrite Ht; flat; reflexivity|].
      split; [left; reflexivity|]. split; [exact He|].
      split; [simpl; apply edge_no_delivery; exact He|].
      split; [exact Hd | apply callback_effects_no_client_call; exact Hd].
    + intros w' Hrun. exfalso. apply (Hns w'). exact Hrun.
  - match goal with
    | |- context [reconnect cred fuel ?v] =>
        pose proof (reconnect_done_shape fuel v) as Hshape;
        pose proof (reconnect_spin_shape fuel v) as Hspin;
        destruct (reconnect cred fuel v) as [[] w1|w1|w1]
    end.
    + destruct (Hshape w1 eq_refl) as (n & rounds & Hr & Ht1 & _).
      cbn [trace] in Ht1.
      destruct (Tail w1 _ eq_refl) as (Hns & Hdone).
      split.
      * intros w' Hrun.
        destruct (Hdone w' Hrun) as (edge & inbound & Ht & He & Hd).
        exists (ClientConnected false :: rounds ++ [ClientConnected true]),
          edge, inbound.
        split; [rewrite Ht, Ht1; flat; reflexivity|].
        split; [right; exists n, rounds; split; [exact Hr | reflexivity]|].
        split; [exact He|].
        split.
        { rewrite filter_app, (edge_no_delivery edge He). simpl.
          rewrite filter_app, (rounds_no_delivery n rounds Hr). reflexivity. }
        split; [exact Hd | apply callback_effects_no_client_call; exact Hd].
      * intros w' Hrun. exfalso. apply (Hns w'). exact Hrun.
    + split; intros w' Hrun; discriminate.
    + split; intros w' Hrun; [discriminate|].
      inversion Hrun. subst w1.
      destruct (Hspin w' eq_refl) as (rounds & Hr & Ht).
      cbn [trace] in Ht. exists rounds. split; [exact Hr|].
      rewrite Ht. flat. reflexivity.
Qed.

End Facts.

(** ** The theorems at work *)

Lemma callback_first_byte_decides_witness :
  exists w',
    callback board0 "inTopic" [x31; x30] 2 (boot tt) = Done tt w' /\
    pins w' 2 = Some LOW.
Proof.
  destruct (callback_first_byte_decides board0 "inTopic" x31 [x30] 2 (boot tt))
    as (w' & delta & Hrun & _ & _ & Hpin & _).
  - simpl. lia.
  - unfold INT_MAX. lia.
  - exists w'. split; [exact Hrun | exact Hpin].
Defined.

Lemma button_rising_publish_attempts_witness :
  exists delta inbound,
    trace (world_of (loop cred0 board0 1 (booted active_pressed_lost))) =
      ClientConnected true :: delta ++ ClientLoop :: inbound /\
    publish_attempts delta =
      [("outTopic", "Button pressed!", false);
       ("outTopic", "Button pressed!", true)] /\
    publish_attempts inbound = [].
Proof.
  destruct (button_rising_publish_attempts (H := Scripted) cred0 board0 1
              (booted active_pressed_lost) false
              (snd (client_connected active_pressed_lost))
              (snd (client_connected active_pressed_lost))
              (snd (bouncer_rose (snd (client_connected active_pressed_lost)))))
    as (w' & delta & inbound & _ & Ht & _ & Htick & Hin & Hp & _);
    [reflexivity | reflexivity | reflexivity |].
  exists delta, inbound. split; [|split; [exact Hp | exact Hin]].
  rewrite Htick, Ht. reflexivity.
Defined.

Lemma button_falling_only_led_witness :
  exists w',
    button cred0 board0 (boot released) = Done tt w' /\
    pins w' 2 = Some HIGH /\
    publish_attempts (trace w') = [].
Proof.
  destruct (button_falling_only_led (H := Scripted) cred0 board0
              (boot released) false released (snd (bouncer_rose released))
              (snd (bouncer_fell (snd (bouncer_rose released)))))
    as (w' & delta & Hrun & Ht & _ & Hpin & _ & _ & Hp & _);
    [reflexivity | reflexivity | reflexivity |].
  exists w'. split; [exact Hrun|]. split.
  - rewrite Hpin. reflexivity.
  - rewrite Ht. exact Hp.
Defined.

Lemma setup_mqtt_success_witness :
  exists w',
    setup_mqtt cred0 (boot broker_up) = Done tt w' /\
    callback_set w' = true /\
    publish_attempts (trace w') = [("outTopic", "connected", true)].
Proof.
  destruct (setup_mqtt_success (H := Scripted) cred0 (boot broker_up)
              (snd (client_connect (ConnectId "") broker_up)))
    as (w' & delta & Hrun & Ht & _ & Hcb & Hp & _); [reflexivity|].
  exists w'. split; [exact Hrun|]. split; [exact Hcb|].
  rewrite Ht. exact Hp.
Defined.

Lemma setup_mqtt_failure_witness :
  exists w',
    setup_mqtt cred0 (boot quiet) = Done tt w' /\
    callback_set w' = false /\
    publish_attempts (trace w') = [].
Proof.
  eexists. split.
  - apply (setup_mqtt_failure (H := Scripted) cred0 (boot quiet) quiet).
    reflexivity.
  - split; reflexivity.
Defined.

Lemma inline_recovery_full_login_results_dropped_witness :
  (exists w',
     button cred0 board0 (boot pressed_lost) = Done tt w' /\
     connect_attempts (trace w') =
       [(ConnectIdUserPass "esp8266" "user" "pass", true)]) /\
  (exists delta,
     trace (world_of (reconnect cred0 3 (boot session_second))) = delta /\
     List.length (connect_attempts delta) = 2%nat /\
     Forall (fun a => fst a = ConnectId "esp8266") (connect_attempts delta)).
Proof.
  destruct (inline_recovery_full_login_results_dropped (H := Scripted)
              cred0 board0 (boot pressed_lost) false pressed_lost
              (snd (bouncer_rose pressed_lost))
              (snd (client_publish "" "" (snd (bouncer_rose pressed_lost)))))
    as ((w' & Hrun & _ & Ht) & Hre);
    [reflexivity | reflexivity | reflexivity |].
  split.
  - exists w'. split; [exact Hrun|]. rewrite Ht. reflexivity.
  - destruct (Hre 3%nat (boot session_second))
      as (n & rounds & tail & _ & _ & Htr & Hlen & Hid & _).
    exists (rounds ++ tail). cbn [trace boot app] in Htr.
    split; [exact Htr|]. split; [|exact Hid].
    rewrite <- Htr. vm_compute. reflexivity.
Defined.

Lemma setup_wifi_waits_for_link_witness :
  (exists w', setup_wifi cred0 board0 3 (boot link_third) = Done tt w') /\
  (exists w', setup_wifi cred0 board0 7 (boot tt) = Spin w').
Proof.
  destruct (setup_wifi_waits_for_link (H := Scripted) cred0 board0
              (boot link_third)) as (_ & Hup & _).
  destruct (setup_wifi_waits_for_link (H := Offline) cred0 board0 (boot tt))
    as (_ & _ & Hdown).
  split.
  - eapply (Hup 2%nat).
    + econstructor; [vm_compute; reflexivity | vm_compute; reflexivity |].
      econstructor; [vm_compute; reflexivity | vm_compute; reflexivity |].
      constructor.
    + reflexivity.
    + lia.
  - destruct (Hdown (fun n w1 _ => ltac:(simpl; lia)) 7%nat)
      as (w' & polls & Hrun & _).
    exists w'. exact Hrun.
Defined.

Lemma reconnect_until_session_connected_witness :
  (exists w', reconnect cred0 3 (boot session_second) = Done tt w') /\
  (exists w', reconnect cred0 7 (boot tt) = Spin w').
Proof.
  destruct (reconnect_until_session_connected (H := Scripted) cred0
              (boot session_second)) as (_ & Hup & _).
  destruct (reconnect_until_session_connected (H := Offline) cred0 (boot tt))
    as (_ & _ & Hdown).
  split.
  - eapply (Hup 2%nat).
    + econstructor; [vm_compute; reflexivity | vm_compute; reflexivity |].
      econstructor; [vm_compute; reflexivity | vm_compute; reflexivity |].
      constructor.
    + reflexivity.
    + lia.
  - destruct (Hdown (fun n w1 _ => eq_refl) 7%nat)
      as (w' & rounds & Hrun & _).
    exists w'. exact Hrun.
Defined.

Lemma loop_tick_is_serial_witness :
  exists (w' : World Script) (session edge inbound : list Event),
    loop cred0 board0 1 (booted busy_tick) = Done tt w' /\
    trace w' = session ++ edge ++ ClientLoop :: inbound /\
    filter is_delivery (session ++ edge) = [] /\
    filter is_client_call inbound = [].
Proof.
  destruct (loop_tick_is_serial (H := Scripted) cred0 board0 1
              (booted busy_tick)) as (Hdone & _).
  assert (Hrun : loop cred0 board0 1 (booted busy_tick) =
                 Done tt (world_of (loop cred0 board0 1 (booted busy_tick))))
    by (vm_compute; reflexivity).
  destruct (Hdone _ Hrun)
    as (session & edge & inbound & Ht & _ & _ & Hnd & _ & Hnc).
  exists (world_of (loop cred0 board0 1 (booted busy_tick))),
    session, edge, inbound.
  split; [exact Hrun|]. split; [exact Ht|]. split; [exact Hnd | exact Hnc].
Defined.

(** ** Where the code leaves the specification *)

(** C3 as worded does not hold.  With no network at all [reconnect] goes
    on asking the broker, every five seconds, and never looks at the state
    of the link: after two rounds it has made two connects and no status
    request. *)
Lemma reconnect_connects_without_link_check :
  (forall e : unit, fst (wifi_status e) <> WL_CONNECTED board0) /\
  reconnect cred0 2 (boot tt) = Spin offline_after_two /\
  connect_attempts (trace offline_after_two) =
    [(ConnectId "esp8266", false); (ConnectId "esp8266", false)] /\
  filter is_link_call (trace offline_after_two) = [] /\
  ~ link_checked_before_connects (trace offline_after_two).
Proof.
  split; [intros e; simpl; lia|].
  split; [vm_compute; reflexivity|].
  split; [vm_compute; reflexivity|].
  split; [vm_compute; reflexivity|].
  intros Hclaim.
  assert (Hsplit :
    trace offline_after_two =
    [ClientConnected false;
     SerialPrint (PStr "Attempting MQTT reconnection...")] ++
    ClientConnect (ConnectId "esp8266") false
    :: tl (tl (tl (trace offline_after_two))))
    by (vm_compute; reflexivity).
  specialize (Hclaim _ _ _ _ Hsplit). discriminate Hclaim.
Qed.

(** A connect that succeeds does not end [reconnect] by itself: when the
    client then reports the session down, the next connect follows at
    once, with no delay in between. *)
Example reconnect_connects_again_after_success :
  exists w',
    reconnect cred0 3 (boot session_flaps) = Done tt w' /\
    trace w' =
      reconnect_ok_round cred0 true true ++
      reconnect_ok_round cred0 true true ++ [ClientConnected true].
Proof. eexists. split; vm_compute; reflexivity. Qed.

(** C4 on the scripted board: an empty message that follows a message "1"
    in the client's buffer switches the LED on. *)
Example callback_empty_payload_led_on :
  exists w',
    callback board0 "inTopic" [x31] 0 (boot quiet) = Done tt w' /\
    pins w' (BUILTIN_LED board0) = Some LOW /\
    trace w' =
      [SerialPrint (PStr "Message arrived ["); SerialPrint (PStr "inTopic");
       SerialPrint (PStr "] "); SerialPrintln None; DigitalWrite 2 LOW].
Proof.
  eexists. split; [vm_compute; reflexivity|]. split; vm_compute; reflexivity.
Qed.

(** ** Further properties of the sketch *)

Section MoreFacts.

Context {Env : Type} `{Platform Env}.
Variable cred : Credentials.
Variable board : Board.

Ltac flat := repeat (progress (rewrite <- ?app_assoc; simpl)).

Ltac unfold_calls :=
  unfold bouncer_update_, bouncer_rose_, bouncer_fell_, client_publish_,
    client_connect_, client_subscribe_, client_connected_, client_state_,
    client_setCallback, WiFi_status, WiFi_localIP, WiFi_hostname, WiFi_mode,
    WiFi_begin, delay, digitalWrite, pinMode, Serial_println, Serial_print,
    Serial_println0, Serial_printf, Serial_begin, bouncer_attach,
    bouncer_interval;
  unfold bind, call, call_, emit, ret, log; simpl.

(** *** Worlds that differ by prints and LED writes *)

Lemma writes_within_app (p1 p2 : Z) (a b : list Event) :
  writes_within p1 p2 a -> writes_within p1 p2 b ->
  writes_within p1 p2 (a ++ b).
Proof.
  intros Ha Hb pin l Hin. apply in_app_or in Hin.
  destruct Hin as [Hin|Hin]; [apply (Ha pin l Hin) | apply (Hb pin l Hin)].
Qed.

Lemma printed_and_lit_refl (led : Z) (w : World Env) :
  printed_and_lit led w w.
Proof.
  split; [reflexivity|]. split; [reflexivity|]. split; [reflexivity|].
  exists []. rewrite app_nil_r. split; [reflexivity|].
  split; [reflexivity|]. intros pin l [].
Qed.

Lemma printed_and_lit_trans (led : Z) (a b c : World Env) :
  printed_and_lit led a b -> printed_and_lit led b c ->
  printed_and_lit led a c.
Proof.
  intros (He1 & Hc1 & Hp1 & d1 & Ht1 & Hd1 & Hw1)
         (He2 & Hc2 & Hp2 & d2 & Ht2 & Hd2 & Hw2).
  split; [congruence|]. split; [congruence|].
  split; [intros q Hq; rewrite (Hp2 q Hq); apply (Hp1 q Hq)|].
  exists (d1 ++ d2). split; [rewrite Ht2, Ht1, app_assoc; reflexivity|].
  split; [rewrite forallb_app, Hd1, Hd2; reflexivity|].
  apply writes_within_app; assumption.
Qed.

Lemma printed_and_lit_print (led : Z) (w : World Env) (ev : Event) :
  is_callback_effect ev = true ->
  (forall (pin : Z) (l : Level), ev <> DigitalWrite pin l) ->
  printed_and_lit led w
    (mkWorld (env w) (pins w) (callback_set w) (trace w ++ [ev])).
Proof.
  intros Hev Hnw.
  split; [reflexivity|]. split; [reflexivity|]. split; [reflexivity|].
  exists [ev]. split; [reflexivity|]. split; [simpl; rewrite Hev; reflexivity|].
  intros pin l [Heq|[]]. exfalso. apply (Hnw pin l Heq).
Qed.

Lemma printed_and_lit_write (led : Z) (w : World Env) (l : Level) :
  printed_and_lit led w
    (mkWorld (env w) (set_pin (pins w) led l) (callback_set w)
       (trace w ++ [DigitalWrite led l])).
Proof.
  split; [reflexivity|]. split; [reflexivity|]. split.
  - intros q Hq. cbn [pins]. unfold set_pin.
    destruct (q =? led) eqn:E; [apply Z.eqb_eq in E; contradiction|reflexivity].
  - exists [DigitalWrite led l]. split; [reflexivity|]. split; [reflexivity|].
    intros pin l' [Heq|[]]. inversion Heq. left. reflexivity.
Qed.

Lemma for_int_printed (led : Z) (length : Z) (body : Z -> M Env unit) :
  (forall (i : Z) (w : World Env),
     printed_and_lit led w (world_of (body i w))) ->
  forall (fuel : nat) (i : Z) (w : World Env),
    printed_and_lit led w
      (world_of (for_int fuel i (fun i => to_unsigned i <? length) body w)).
Proof.
  intros Hbody fuel.
  induction fuel as [|fuel IH]; intros i w; cbn [for_int].
  - apply printed_and_lit_refl.
  - destruct (to_unsigned i <? length); [|apply printed_and_lit_refl].
    unfold bind. pose proof (Hbody i w) as Hb.
    destruct (body i w) as [[] w1|w1|w1]; cbn [world_of] in *;
      try exact Hb.
    unfold int_incr. destruct (i <? INT_MAX).
    + unfold ret.
      apply (printed_and_lit_trans led w w1); [exact Hb | apply IH].
    + exact Hb.
Qed.

Lemma print_byte_printed (led : Z) (payload : list byte) (i : Z)
    (w : World Env) :
  printed_and_lit led w
    (world_of (bind (load payload i) (fun c => Serial_print (PChar c)) w)).
Proof.
  unfold bind, load.
  destruct (i <? 0); [apply printed_and_lit_refl|].
  destruct (nth_error payload (Z.to_nat i)) as [c|];
    [|apply printed_and_lit_refl].
  apply printed_and_lit_print; [reflexivity | discriminate].
Qed.

Lemma callback_printed (topic : string) (payload : list byte) (length : Z)
    (w : World Env) :
  printed_and_lit (BUILTIN_LED board) w
    (world_of (callback board topic payload length w)).
Proof.
  unfold callback.
  unfold bind at 1 2 3. unfold Serial_print at 1 2 3. unfold emit, log.
  cbn [env pins callback_set trace].
  unfold bind at 1.
  match goal with
  | |- context [for_int ?f ?i ?c ?b ?v] =>
      pose proof (for_int_printed (BUILTIN_LED board) length b
                    (print_byte_printed (BUILTIN_LED board) payload) f i v)
        as Hloop;
      assert (Hhead : printed_and_lit (BUILTIN_LED board) w v);
      [|destruct (for_int f i c b v) as [[] w1|w1|w1]]
  end; cbn [world_of] in *.
  - split; [reflexivity|]. split; [reflexivity|]. split; [reflexivity|].
    eexists. split; [flat; reflexivity|]. split; [reflexivity|].
    intros pin l Hin. simpl in Hin.
    destruct Hin as [E|[E|[E|[]]]]; discriminate E.
  - eapply printed_and_lit_trans; [exact Hhead|].
    eapply printed_and_lit_trans; [exact Hloop|].
    unfold bind, Serial_println0, emit, log, load.
    cbn [env pins callback_set trace Z.ltb Z.compare Z.to_nat].
    eapply printed_and_lit_trans;
      [apply (printed_and_lit_print _ w1 (SerialPrintln None));
       [reflexivity | discriminate]|].
    destruct (nth_error payload 0) as [c|]; [|apply printed_and_lit_refl].
    unfold ret. destruct (Byte.eqb c x31); unfold digitalWrite, log;
      cbn [world_of];
      apply (printed_and_lit_write (BUILTIN_LED board)
               (mkWorld (env w1) (pins w1) (callback_set w1)
                  (trace w1 ++ [SerialPrintln None]))).
  - eapply printed_and_lit_trans; [exact Hhead | exact Hloop].
  - eapply printed_and_lit_trans; [exact Hhead | exact Hloop].
Qed.

Lemma effects_no_client_call (d : list Event) :
  forallb is_callback_effect d = true ->
  filter is_client_call d = [] /\ publish_attempts d = [] /\
  connect_attempts d = [] /\ delays d = [] /\ filter is_set_callback d = [].
Proof.
  induction d as [|ev d IH]; [repeat split|].
  simpl. intros Hd. apply andb_true_iff in Hd. destruct Hd as [Hev Hd].
  destruct ev; try discriminate; simpl; apply IH; exact Hd.
Qed.

(** *** callback *)





(** X2. Given a message that is whole, [callback] prints the header, the
    topic, then the [length] bytes of the payload in order and nothing of
    what lies behind them in the buffer, then ends the line, and makes one
    write to the LED pin; it leaves the rest of the world alone. *)
Theorem callback_echoes_message (m : Inbound) (w : World Env) :
  whole_message m ->
  exists w',
    callback board (in_topic m) (in_payload m) (in_length m) w = Done tt w' /\
    trace w' =
      trace w ++
      [SerialPrint (PStr "Message arrived ["); SerialPrint (PStr (in_topic m));
       SerialPrint (PStr "] ")] ++
      map (fun b => SerialPrint (PChar b))
        (firstn (Z.to_nat (in_length m)) (in_payload m)) ++
      [SerialPrintln None;
       DigitalWrite (BUILTIN_LED board) (message_level m)] /\
    List.length (firstn (Z.to_nat (in_length m)) (in_payload m)) =
      Z.to_nat (in_length m) /\
    env w' = env w /\
    callback_set w' = callback_set w /\
    pins w' = set_pin (pins w) (BUILTIN_LED board) (message_level m).
Proof.
  intros (Hlen & Hmax & Hne).
  destruct m as [topic payload length]. cbn [in_topic in_payload in_length] in *.
  destruct payload as [|c more]; [contradiction|].
  eexists. split.
  - apply (callback_run board topic (c :: more) length c w);
      [lia | lia | reflexivity].
  - cbn [trace env pins callback_set]. unfold message_level, callback_trace.
    cbn [in_payload]. split; [reflexivity|].
    split; [rewrite length_firstn; lia|]. repeat split.
Qed.

(** Delivery of whole messages, one after the other. *)
Lemma deliver_run (msgs : list Inbound) :
  Forall whole_message msgs ->
  forall w : World Env,
  exists w',
    deliver board msgs w = Done tt w' /\
    trace w' = trace w ++ flat_map (delivery_trace board) msgs /\
    env w' = env w /\
    callback_set w' = callback_set w /\
    pins w' (BUILTIN_LED board) =
      fold_left (fun _ m => Some (message_level m)) msgs
        (pins w (BUILTIN_LED board)).
Proof.
  induction 1 as [|m msgs Hm Hall IH]; intros w; cbn [deliver].
  - exists w. simpl. rewrite app_nil_r. repeat split.
  - destruct Hm as (Hlen & Hmax & Hne).
    destruct m as [topic payload length].
    cbn [in_topic in_payload in_length] in *.
    destruct payload as [|c more]; [contradiction|].
    unfold bind at 1. unfold emit, log. unfold bind.
    rewrite (callback_run board topic (c :: more) length c);
      [|lia|lia|reflexivity].
    match goal with
    | |- context [deliver board msgs ?v] =>
        destruct (IH v) as (w' & Hrun & Ht & He & Hc & Hp)
    end.
    exists w'. split; [exact Hrun|].
    cbn [env pins callback_set trace] in *.
    split; [rewrite Ht; flat; reflexivity|].
    split; [exact He|]. split; [exact Hc|].
    rewrite Hp. cbn [fold_left]. unfold set_pin. rewrite Z.eqb_refl.
    reflexivity.
Qed.

Lemma pin_writes_delivery (msgs : list Inbound) :
  Forall whole_message msgs ->
  pin_writes (BUILTIN_LED board) (flat_map (delivery_trace board) msgs) =
    map message_level msgs.
Proof.
  induction 1 as [|m msgs Hm Hall IH]; [reflexivity|].
  destruct Hm as (_ & _ & Hne).
  cbn [flat_map map]. rewrite pin_writes_app, IH.
  unfold delivery_trace, message_level.
  destruct (in_payload m) as [|c more] eqn:E; [contradiction|].
  cbn [pin_writes]. rewrite callback_trace_writes. reflexivity.
Qed.

(** X4. When [client.loop()] hands whole messages to the registered
    callback, the LED pin is written once per message, in the order of
    arrival, with the level of that message; the level it is left with is
    that of the last message, whatever the pin held before. *)
Theorem poll_last_message_wins
    (w : World Env) (msgs : list Inbound) (e' : Env) :
  callback_set w = true ->
  client_poll (env w) = (msgs, e') ->
  Forall whole_message msgs ->
  exists (w' : World Env) (d : list Event),
    client_loop_ board w = Done tt w' /\
    trace w' = trace w ++ ClientLoop :: d /\
    d = flat_map (delivery_trace board) msgs /\
    pin_writes (BUILTIN_LED board) d = map message_level msgs /\
    env w' = e' /\
    forall (earlier : list Inbound) (m : Inbound),
      msgs = earlier ++ [m] ->
      pins w' (BUILTIN_LED board) = Some (message_level m).
Proof.
  intros Hcb Hpoll Hall.
  unfold client_loop_. unfold bind, call, log.
  cbn [env pins callback_set trace]. rewrite Hcb, Hpoll. cbn [fst snd].
  match goal with
  | |- context [deliver board msgs ?v] =>
      destruct (deliver_run msgs Hall v) as (w' & Hrun & Ht & He & Hc & Hp)
  end.
  cbn [env pins callback_set trace] in *.
  exists w', (flat_map (delivery_trace board) msgs).
  split; [exact Hrun|]. split; [rewrite Ht; flat; reflexivity|].
  split; [reflexivity|]. split; [apply pin_writes_delivery; exact Hall|].
  split; [exact He|].
  intros earlier m Heq. rewrite Hp, Heq, fold_left_app. reflexivity.
Qed.

(** *** button *)

Abbreviation full_login :=
  (ConnectIdUserPass (mqtt_clientID cred) (mqtt_username cred)
     (mqtt_password cred)).

(** [button] with what it leaves untouched. *)
Lemma button_frame (w : World Env) :
  exists (w' : World Env) (delta : list Event),
    button cred board w = Done tt w' /\
    trace w' = trace w ++ delta /\
    edge_handling cred board delta /\
    callback_set w' = callback_set w /\
    forall q : Z, q <> ledPin board -> pins w' q = pins w q.
Proof.
  assert (Hset : forall (l : Level) (q : Z),
            q <> ledPin board -> set_pin (pins w) (ledPin board) l q = pins w q).
  { intros l q Hq. unfold set_pin.
    destruct (q =? ledPin board) eqn:E; [apply Z.eqb_eq in E; contradiction|].
    reflexivity. }
  destruct (bouncer_update (env w)) as [changed e1] eqn:E1.
  destruct (bouncer_rose e1) as [[|] e2] eqn:E2.
  - eexists. eexists.
    split; [apply (button_rising_run cred board w changed e1 e2 E1 E2)|].
    cbn [trace callback_set pins].
    split; [reflexivity|]. split; [constructor|]. split; [reflexivity|].
    apply Hset.
  - destruct (bouncer_fell e2) as [[|] e3] eqn:E3.
    + eexists. eexists.
      split; [apply (button_falling_run cred board w changed e1 e2 e3 E1 E2 E3)|].
      cbn [trace callback_set pins].
      split; [reflexivity|]. split; [constructor|]. split; [reflexivity|].
      apply Hset.
    + eexists. eexists.
      split; [apply (button_idle_run cred board w changed e1 e2 e3 E1 E2 E3)|].
      cbn [trace callback_set pins].
      split; [reflexivity|]. split; [constructor|]. split; reflexivity.
Qed.

Lemma edge_bounds (delta : list Event) :
  edge_handling cred board delta ->
  (List.length (publish_attempts delta) <= 2)%nat /\
  Forall (fun p => fst p = (mqtt_out_topic cred, "Button pressed!"))
    (publish_attempts delta) /\
  (List.length (connect_attempts delta) <= 1)%nat /\
  (List.length (publish_attempts delta) = 2%nat ->
   List.length (connect_attempts delta) = 1%nat) /\
  subscribe_attempts delta = [] /\
  0 <= total_delay delta <= 10 /\
  (List.length (pin_writes (ledPin board) delta) <= 1)%nat /\
  writes_within (ledPin board) (ledPin board) delta /\
  filter is_set_callback delta = [].
Proof.
  intros [changed sent conn again|changed|changed].
  - destruct sent; unfold rising_trace, total_delay, ledPin; simpl;
      rewrite Z.eqb_refl; simpl;
      (split; [lia|]); (split; [repeat constructor|]);
      (split; [lia|]); (split; [intros; try reflexivity; discriminate|]);
      (split; [reflexivity|]); (split; [lia|]); (split; [lia|]);
      (split; [|reflexivity]);
      intros pin l Hin; simpl in Hin;
      repeat (destruct Hin as [Hin|Hin];
              [try discriminate Hin; inversion Hin; left; reflexivity|]);
      destruct Hin.
  - unfold falling_trace, total_delay, ledPin; simpl;
      rewrite Z.eqb_refl; simpl.
    split; [lia|]. split; [constructor|]. split; [lia|].
    split; [discriminate|]. split; [reflexivity|]. split; [lia|].
    split; [lia|]. split; [|reflexivity].
    intros pin l Hin; simpl in Hin;
      repeat (destruct Hin as [Hin|Hin];
              [try discriminate Hin; inversion Hin; left; reflexivity|]);
      destruct Hin.
  - unfold idle_trace, total_delay; simpl.
    split; [lia|]. split; [constructor|]. split; [lia|].
    split; [discriminate|]. split; [reflexivity|]. split; [lia|].
    split; [lia|]. split; [|reflexivity].
    intros pin l Hin; simpl in Hin;
      repeat (destruct Hin as [Hin|Hin]; [discriminate Hin|]);
      destruct Hin.
Qed.

(** X5. Whatever the button and the broker do, one call of [button]
    returns after at most two publish attempts, all of "Button pressed!"
    on the outbound topic, at most one connect (made only between the two
    publishes), no subscription, at most 10 ms of waiting and at most one
    write, to the LED pin; it never registers a callback. *)
Theorem button_is_bounded (w : World Env) :
  exists (w' : World Env) (delta : list Event),
    button cred board w = Done tt w' /\
    trace w' = trace w ++ delta /\
    (List.length (publish_attempts delta) <= 2)%nat /\
    Forall (fun p => fst p = (mqtt_out_topic cred, "Button pressed!"))
      (publish_attempts delta) /\
    (List.length (connect_attempts delta) <= 1)%nat /\
    (List.length (publish_attempts delta) = 2%nat ->
     List.length (connect_attempts delta) = 1%nat) /\
    subscribe_attempts delta = [] /\
    0 <= total_delay delta <= 10 /\
    (List.length (pin_writes (ledPin board) delta) <= 1)%nat /\
    callback_set w' = callback_set w /\
    forall q : Z, q <> ledPin board -> pins w' q = pins w q.
Proof.
  destruct (button_frame w) as (w' & delta & Hrun & Ht & He & Hc & Hp).
  destruct (edge_bounds delta He)
    as (B1 & B2 & B3 & B4 & B5 & B6 & B7 & _ & _).
  exists w', delta. repeat split; try assumption; lia.
Qed.

(** X6. A tick that finds the session connected, no edge on the button
    and no message waiting makes five calls and changes nothing: it
    publishes nothing, waits for nothing and writes no pin. *)
Theorem idle_tick_is_quiet
    (fuel : nat) (w : World Env) (changed : bool) (e0 e1 e2 e3 e4 : Env) :
  client_connected (env w) = (true, e0) ->
  bouncer_update e0 = (changed, e1) ->
  bouncer_rose e1 = (false, e2) ->
  bouncer_fell e2 = (false, e3) ->
  client_poll e3 = ([], e4) ->
  loop cred board fuel w =
    Done tt
      (mkWorld e4 (pins w) (callback_set w)
         (trace w ++
            [ClientConnected true; BouncerUpdate changed; BouncerRose false;
             BouncerFell false; ClientLoop])).
Proof.
  intros Ec E1 E2 E3 Ep.
  rewrite loop_split. cbv zeta. rewrite Ec. cbn [fst snd].
  unfold bind at 1.
  rewrite (button_idle_run cred board
             (mkWorld e0 (pins w) (callback_set w)
                (trace w ++ [ClientConnected true]))
             changed e1 e2 e3 E1 E2 E3).
  unfold client_loop_, bind, call, log.
  cbn [env pins callback_set trace]. rewrite Ep. cbn [fst snd].
  unfold idle_trace.
  destruct (callback_set w); cbn [deliver]; unfold ret; flat; reflexivity.
Qed.

(** *** reconnect *)

Lemma publish_attempts_app (a b : list Event) :
  publish_attempts (a ++ b) = publish_attempts a ++ publish_attempts b.
Proof.
  induction a as [|ev a IH]; [reflexivity|].
  destruct ev; simpl; rewrite ?IH; reflexivity.
Qed.

Lemma connect_attempts_app (a b : list Event) :
  connect_attempts (a ++ b) = connect_attempts a ++ connect_attempts b.
Proof.
  induction a as [|ev a IH]; [reflexivity|].
  destruct ev; simpl; rewrite ?IH; reflexivity.
Qed.

Lemma subscribe_attempts_app (a b : list Event) :
  subscribe_attempts (a ++ b) = subscribe_attempts a ++ subscribe_attempts b.
Proof.
  induction a as [|ev a IH]; [reflexivity|].
  destruct ev; simpl; rewrite ?IH; reflexivity.
Qed.

Lemma delays_app (a b : list Event) : delays (a ++ b) = delays a ++ delays b.
Proof.
  induction a as [|ev a IH]; [reflexivity|].
  destruct ev; simpl; rewrite ?IH; reflexivity.
Qed.

Lemma total_delay_app (a b : list Event) :
  total_delay (a ++ b) = total_delay a + total_delay b.
Proof.
  unfold total_delay. rewrite delays_app.
  induction (delays a) as [|x l IH]; [reflexivity|].
  cbn [app fold_right]. rewrite IH. lia.
Qed.

Lemma count_connects_app (ok : bool) (a b : list Event) :
  count_connects ok (a ++ b) =
    (count_connects ok a + count_connects ok b)%nat.
Proof.
  unfold count_connects.
  rewrite connect_attempts_app, filter_app, length_app. reflexivity.
Qed.

Lemma writes_within_wider (p p1 p2 : Z) (t : list Event) :
  writes_within p p t -> (p = p1 \/ p = p2) -> writes_within p1 p2 t.
Proof.
  intros Hw Hp pin l Hin.
  destruct (Hw pin l Hin) as [E|E]; subst pin; exact Hp.
Qed.

(** What the rounds of [reconnect] add up to. *)
Lemma rounds_accounting (n : nat) (rounds : list Event) :
  reconnect_rounds cred n rounds ->
  List.length (publish_attempts rounds) = count_connects true rounds /\
  List.length (subscribe_attempts rounds) = count_connects true rounds /\
  Forall (fun p => fst p = (mqtt_out_topic cred, "reconnected"))
    (publish_attempts rounds) /\
  Forall (fun p => fst p = mqtt_in_topic cred) (subscribe_attempts rounds) /\
  total_delay rounds = 5000 * Z.of_nat (count_connects false rounds) /\
  (count_connects true rounds + count_connects false rounds)%nat = n /\
  filter is_set_callback rounds = [] /\
  (forall (pin : Z) (l : Level), ~ In (DigitalWrite pin l) rounds).
Proof.
  induction 1 as [|n pub sub t Hr IH|n st t Hr IH].
  - repeat split; try constructor. intros pin l [].
  - destruct IH as (I1 & I2 & I3 & I4 & I5 & I6 & I7 & I8).
    rewrite publish_attempts_app, subscribe_attempts_app, total_delay_app,
      !count_connects_app, filter_app, I7.
    change (publish_attempts (reconnect_ok_round cred pub sub))
      with [(mqtt_out_topic cred, "reconnected", pub)].
    change (subscribe_attempts (reconnect_ok_round cred pub sub))
      with [(mqtt_in_topic cred, sub)].
    change (total_delay (reconnect_ok_round cred pub sub)) with 0.
    change (count_connects true (reconnect_ok_round cred pub sub)) with 1%nat.
    change (count_connects false (reconnect_ok_round cred pub sub)) with 0%nat.
    change (filter is_set_callback (reconnect_ok_round cred pub sub))
      with (@nil Event).
    cbn [app List.length].
    split; [lia|]. split; [lia|].
    split; [constructor; [reflexivity | exact I3]|].
    split; [constructor; [reflexivity | exact I4]|].
    split; [lia|]. split; [lia|]. split; [reflexivity|].
    intros pin l Hin. apply in_app_or in Hin. destruct Hin as [Hin|Hin].
    + unfold reconnect_ok_round in Hin. cbn [In] in Hin.
      repeat (destruct Hin as [Hin|Hin]; [discriminate Hin|]). exact Hin.
    + apply (I8 pin l Hin).
  - destruct IH as (I1 & I2 & I3 & I4 & I5 & I6 & I7 & I8).
    rewrite publish_attempts_app, subscribe_attempts_app, total_delay_app,
      !count_connects_app, filter_app, I7.
    change (publish_attempts (reconnect_failed_round cred st))
      with (@nil (string * string * bool)).
    change (subscribe_attempts (reconnect_failed_round cred st))
      with (@nil (string * bool)).
    change (total_delay (reconnect_failed_round cred st)) with 5000.
    change (count_connects true (reconnect_failed_round cred st)) with 0%nat.
    change (count_connects false (reconnect_failed_round cred st))
      with 1%nat.
    change (filter is_set_callback (reconnect_failed_round cred st))
      with (@nil Event).
    cbn [app List.length].
    split; [lia|]. split; [lia|].
    split; [exact I3|]. split; [exact I4|].
    split; [lia|]. split; [lia|]. split; [reflexivity|].
    intros pin l Hin. apply in_app_or in Hin. destruct Hin as [Hin|Hin].
    + unfold reconnect_failed_round in Hin. cbn [In] in Hin.
      repeat (destruct Hin as [Hin|Hin]; [discriminate Hin|]). exact Hin.
    + apply (I8 pin l Hin).
Qed.

(** X7. When [reconnect] returns it has published "reconnected" once and
    subscribed to the inbound topic once for every connect that succeeded,
    and has waited 5000 ms for every connect that failed and not
    otherwise; it has written no pin and registered no callback. *)
Theorem reconnect_accounting (fuel : nat) (w w' : World Env) :
  reconnect cred fuel w = Done tt w' ->
  exists delta : list Event,
    trace w' = trace w ++ delta /\
    List.length (publish_attempts delta) = count_connects true delta /\
    List.length (subscribe_attempts delta) = count_connects true delta /\
    Forall (fun p => fst p = (mqtt_out_topic cred, "reconnected"))
      (publish_attempts delta) /\
    Forall (fun p => fst p = mqtt_in_topic cred) (subscribe_attempts delta) /\
    total_delay delta = 5000 * Z.of_nat (count_connects false delta) /\
    filter is_set_callback delta = [] /\
    pins w' = pins w /\
    callback_set w' = callback_set w.
Proof.
  intros Hrun.
  destruct (reconnect_done_shape cred fuel w w' Hrun)
    as (n & rounds & Hr & Ht & Hp & Hc).
  destruct (rounds_accounting n rounds Hr)
    as (I1 & I2 & I3 & I4 & I5 & I6 & I7 & I8).
  exists (rounds ++ [ClientConnected true]).
  rewrite publish_attempts_app, subscribe_attempts_app, total_delay_app,
    !count_connects_app, filter_app, I7.
  change (publish_attempts [ClientConnected true])
    with (@nil (string * string * bool)).
  change (subscribe_attempts [ClientConnected true])
    with (@nil (string * bool)).
  change (total_delay [ClientConnected true]) with 0.
  change (count_connects true [ClientConnected true]) with 0%nat.
  change (count_connects false [ClientConnected true]) with 0%nat.
  rewrite !app_nil_r.
  split; [exact Ht|]. split; [lia|]. split; [lia|].
  split; [exact I3|]. split; [exact I4|]. split; [lia|].
  split; [reflexivity|]. split; assumption.
Qed.

(** *** setup *)

Lemma setup_mqtt_run (w : World Env) :
  exists (w' : World Env) (d : list Event),
    setup_mqtt cred w = Done tt w' /\
    trace w' = trace w ++ d /\
    pins w' = pins w /\
    callback_set w' =
      (fst (client_connect full_login (env w)) || callback_set w)%bool /\
    connect_attempts d =
      [(full_login, fst (client_connect full_login (env w)))] /\
    List.length (publish_attempts d) =
      (if fst (client_connect full_login (env w)) then 1 else 0)%nat /\
    total_delay d = 0.
Proof.
  destruct (client_connect full_login (env w)) as [[|] e1] eqn:E;
    unfold setup_mqtt, client_connect_;
    unfold bind, call, call_, emit, ret, log; simpl; rewrite E; simpl;
    unfold client_setCallback, client_publish_, client_subscribe_,
      Serial_println, Serial_print, Serial_println0;
    unfold bind, call, emit, ret, log; simpl;
    eexists; eexists; (split; [reflexivity|]);
    cbn [env pins callback_set trace]; flat;
    (split; [reflexivity|]); repeat split.
Qed.

Lemma wifi_rounds_frame (n : nat) (w w1 : World Env) :
  iterates (setup_wifi_cond board) setup_wifi_body n w w1 ->
  pins w1 = pins w /\ callback_set w1 = callback_set w.
Proof.
  induction 1 as [w|n w wa wb wc Hc Hb Hit IH]; [split; reflexivity|].
  rewrite setup_wifi_cond_run in Hc. inversion Hc as [[Hst Hw]]. clear Hc.
  subst wa. rewrite setup_wifi_body_run in Hb.
  inversion Hb as [Hw]. clear Hb. subst wb.
  cbn [env pins callback_set trace] in IH. exact IH.
Qed.

Lemma link_polls_quiet (n : nat) (polls : list Event) :
  link_polls board n polls ->
  connect_attempts polls = [] /\ publish_attempts polls = [] /\
  total_delay polls = 500 * Z.of_nat n.
Proof.
  induction 1 as [|n st t Hst Hp IH]; [repeat split|].
  destruct IH as (I1 & I2 & I3).
  split; [exact I1|]. split; [exact I2|].
  change (total_delay
            (WiFiStatus st :: Delay 500 :: SerialPrint (PStr ".") :: t))
    with (500 + total_delay t).
  lia.
Qed.

Lemma setup_split (fuel : nat) (w : World Env) :
  setup cred board fuel w =
    match
      setup_wifi cred board fuel
        (mkWorld (env w) (set_pin (pins w) (ledPin board) HIGH)
           (callback_set w)
           (trace w ++
              [PinMode (ledPin board) OUTPUT; PinMode buttonPin INPUT;
               DigitalWrite (ledPin board) HIGH; BouncerAttach buttonPin;
               BouncerInterval 5]))
    with
    | Done _ w1 => setup_mqtt cred w1
    | Fault w1 => Fault w1
    | Spin w1 => Spin w1
    end.
Proof.
  unfold setup.
  unfold bind at 1 2 3 4 5.
  unfold pinMode, digitalWrite, bouncer_attach, bouncer_interval, emit, log.
  cbn [env pins callback_set trace].
  unfold bind. flat. reflexivity.
Qed.

(** X8. When [setup] returns, the LED pin has been made an output and
    written HIGH before anything else and is still HIGH; after
    [WiFi.begin] the link has been asked for its state, and each answer
    other than [WL_CONNECTED] has been followed by [delay(500)] and a dot
    on the serial port, until the answer was [WL_CONNECTED]; only then has
    the broker been contacted, with one connect that carries client id,
    user name and password; and whether that connect succeeded or not,
    [setup] has not tried again and has not waited. *)
Theorem setup_lights_off_then_connects_once (fuel : nat) (w w' : World Env) :
  setup cred board fuel w = Done tt w' ->
  exists (n : nat) (ok : bool) (polls before after : list Event),
    link_polls board n polls /\
    before =
      [PinMode (ledPin board) OUTPUT; PinMode buttonPin INPUT;
       DigitalWrite (ledPin board) HIGH; BouncerAttach buttonPin;
       BouncerInterval 5] ++
      [SerialBegin baud_rate;
       SerialPrint (PStr "Connecting to ");
       SerialPrintln (Some (PStr (wifi_ssid cred)));
       WiFiHostname (wifi_hostname_ cred);
       SerialPrintf (String.append "Wi-Fi hostname: %s" nl)
         (wifi_hostname_ cred);
       WiFiMode (WIFI_STA board);
       WiFiBegin (wifi_ssid cred) (wifi_password cred)] ++ polls /\
    trace w' =
      trace w ++ before ++ WiFiStatus (WL_CONNECTED board) :: after /\
    firstn 5 before =
      [PinMode (ledPin board) OUTPUT; PinMode buttonPin INPUT;
       DigitalWrite (ledPin board) HIGH; BouncerAttach buttonPin;
       BouncerInterval 5] /\
    connect_attempts before = [] /\
    publish_attempts before = [] /\
    delays before = repeat 500 n /\
    total_delay before = 500 * Z.of_nat n /\
    connect_attempts after = [(full_login, ok)] /\
    List.length (publish_attempts after) = (if ok then 1 else 0)%nat /\
    total_delay after = 0 /\
    pins w' = set_pin (pins w) (ledPin board) HIGH /\
    callback_set w' = (ok || callback_set w)%bool.
Proof.
  intros Hrun. rewrite setup_split in Hrun.
  match type of Hrun with
  | match setup_wifi cred board fuel ?u with _ => _ end = _ =>
      set (u0 := u) in *
  end.
  rewrite setup_wifi_split in Hrun.
  destruct (while fuel (setup_wifi_cond board) setup_wifi_body
              (after_wifi_begin cred board u0))
    as [[] w2| |] eqn:Hw; try discriminate.
  destruct (while_done_inv _ _ fuel _ w2 Hw) as (n & w1 & Hn & Hit & Hc).
  destruct (wifi_rounds board n _ w1 Hit) as (polls & Ht & Hp).
  destruct (wifi_rounds_frame n _ w1 Hit) as (Hpins & Hcb).
  destruct (link_polls_quiet n polls Hp) as (Q1 & Q2 & Q3).
  assert (Q4 : delays polls = repeat 500 n).
  { clear - Hp. induction Hp as [|n st t Hst Hp IH]; [reflexivity|].
    cbn [delays repeat]. rewrite IH. reflexivity. }
  rewrite setup_wifi_cond_run in Hc. injection Hc as Hst Hw2.
  apply negb_false_iff in Hst. apply Z.eqb_eq in Hst.
  destruct (setup_mqtt_run (after_wifi_report w2))
    as (w'' & d & Hm & Htm & Hpm & Hcm & Hca & Hpa & Hdl).
  rewrite Hm in Hrun. inversion Hrun. subst w''. clear Hrun.
  exists n, (fst (client_connect full_login (env (after_wifi_report w2)))).
  exists polls.
  exists ([PinMode (ledPin board) OUTPUT; PinMode buttonPin INPUT;
           DigitalWrite (ledPin board) HIGH; BouncerAttach buttonPin;
           BouncerInterval 5] ++
          [SerialBegin baud_rate;
           SerialPrint (PStr "Connecting to ");
           SerialPrintln (Some (PStr (wifi_ssid cred)));
           WiFiHostname (wifi_hostname_ cred);
           SerialPrintf (String.append "Wi-Fi hostname: %s" nl)
             (wifi_hostname_ cred);
           WiFiMode (WIFI_STA board);
           WiFiBegin (wifi_ssid cred) (wifi_password cred)] ++ polls).
  exists (wifi_report (fst (wifi_localIP (env w2))) ++ d).
  split; [exact Hp|]. split; [reflexivity|].
  split.
  { rewrite Htm. unfold after_wifi_report. cbn [trace].
    rewrite <- Hw2. cbn [trace]. rewrite Ht, Hst.
    unfold after_wifi_begin, u0. cbn [trace env]. flat. reflexivity. }
  split; [reflexivity|].
  split; [rewrite !connect_attempts_app, Q1; reflexivity|].
  split; [rewrite !publish_attempts_app, Q2; reflexivity|].
  split; [rewrite !delays_app, Q4; reflexivity|].
  split; [rewrite !total_delay_app, Q3; reflexivity|].
  split; [rewrite connect_attempts_app, Hca; reflexivity|].
  split; [rewrite publish_attempts_app; exact Hpa|].
  split; [rewrite total_delay_app, Hdl; reflexivity|].
  split.
  { rewrite Hpm. unfold after_wifi_report. cbn [pins].
    rewrite <- Hw2. cbn [pins]. rewrite Hpins. reflexivity. }
  rewrite Hcm. unfold after_wifi_report. cbn [callback_set].
  rewrite <- Hw2. cbn [callback_set]. rewrite Hcb. reflexivity.
Qed.

(** *** loop, tick after tick *)

Lemma deliver_printed (msgs : list Inbound) :
  forall w : World Env,
    printed_and_lit (BUILTIN_LED board) w (world_of (deliver board msgs w)).
Proof.
  induction msgs as [|m msgs IH]; intros w; cbn [deliver].
  - apply printed_and_lit_refl.
  - unfold bind at 1. unfold emit, log. unfold bind.
    match goal with
    | |- context [callback board ?t ?p ?l ?v] =>
        pose proof (callback_printed t p l v) as Hcb;
        assert (Hhead : printed_and_lit (BUILTIN_LED board) w v)
          by (apply printed_and_lit_print; [reflexivity | discriminate]);
        destruct (callback board t p l v) as [[] w1|w1|w1]
    end; cbn [world_of] in *.
    + eapply printed_and_lit_trans; [exact Hhead|].
      eapply printed_and_lit_trans; [exact Hcb | apply IH].
    + eapply printed_and_lit_trans; [exact Hhead | exact Hcb].
    + eapply printed_and_lit_trans; [exact Hhead | exact Hcb].
Qed.

Lemma led_only_refl (w : World Env) : led_only board w w.
Proof.
  split; [reflexivity|]. split; [reflexivity|].
  exists []. rewrite app_nil_r. split; [reflexivity|].
  split; [reflexivity|]. split; [intros pin l []|reflexivity].
Qed.

Lemma led_only_trans (a b c : World Env) :
  led_only board a b -> led_only board b c -> led_only board a c.
Proof.
  intros (Hc1 & Hp1 & d1 & Ht1 & Hs1 & Hw1 & Hn1)
         (Hc2 & Hp2 & d2 & Ht2 & Hs2 & Hw2 & Hn2).
  split; [congruence|].
  split; [intros q Hq1 Hq2; rewrite (Hp2 q Hq1 Hq2); apply (Hp1 q Hq1 Hq2)|].
  exists (d1 ++ d2). split; [rewrite Ht2, Ht1, app_assoc; reflexivity|].
  split; [rewrite filter_app, Hs1, Hs2; reflexivity|].
  split; [apply writes_within_app; assumption|].
  intros Hoff. rewrite filter_app, (Hn1 Hoff), Hn2; [reflexivity|].
  rewrite Hc1. exact Hoff.
Qed.

(** A step that adds events which are neither pin writes, nor
    [setCallback], nor deliveries. *)
Lemma led_only_calls (w w' : World Env) (d : list Event) :
  callback_set w' = callback_set w ->
  pins w' = pins w ->
  trace w' = trace w ++ d ->
  filter is_set_callback d = [] ->
  filter is_delivery d = [] ->
  (forall (pin : Z) (l : Level), ~ In (DigitalWrite pin l) d) ->
  led_only board w w'.
Proof.
  intros Hc Hp Ht Hs Hd Hw.
  split; [exact Hc|]. split; [intros q _ _; rewrite Hp; reflexivity|].
  exists d. split; [exact Ht|]. split; [exact Hs|].
  split; [intros pin l Hin; destruct (Hw pin l Hin)|].
  intros _. exact Hd.
Qed.

Lemma button_led_only (w : World Env) :
  exists w', button cred board w = Done tt w' /\ led_only board w w'.
Proof.
  destruct (button_frame w) as (w' & delta & Hrun & Ht & He & Hc & Hp).
  destruct (edge_bounds delta He) as (_ & _ & _ & _ & _ & _ & _ & Hw & Hs).
  exists w'. split; [exact Hrun|].
  split; [exact Hc|]. split; [intros q Hq _; apply Hp; exact Hq|].
  exists delta. split; [exact Ht|]. split; [exact Hs|].
  split; [apply (writes_within_wider (ledPin board)); [exact Hw | left; reflexivity]|].
  intros _. apply (edge_no_delivery cred board). exact He.
Qed.

Lemma client_loop_led_only (w w' : World Env) :
  client_loop_ board w = Done tt w' -> led_only board w w'.
Proof.
  unfold client_loop_. unfold bind, call, log.
  cbn [env pins callback_set trace].
  destruct (callback_set w) eqn:Hcb.
  - match goal with
    | |- deliver board ?m ?v = _ -> _ =>
        pose proof (deliver_printed m v) as Hd; intros Hrun; rewrite Hrun in Hd
    end.
    cbn [world_of] in Hd.
    destruct Hd as (He & Hc & Hp & d & Ht & Hd & Hw).
    cbn [env pins callback_set trace] in *.
    destruct (effects_no_client_call d Hd) as (_ & _ & _ & _ & Hs).
    split; [congruence|]. split; [intros q _ Hq; apply Hp; exact Hq|].
    exists (ClientLoop :: d). split; [rewrite Ht; flat; reflexivity|].
    split; [exact Hs|].
    split.
    + intros pin l [E|Hin]; [discriminate E|].
      destruct (Hw pin l Hin) as [E|E]; right; exact E.
    + intros Hoff. congruence.
  - intros Hrun. inversion Hrun. subst w'. clear Hrun.
    apply (led_only_calls _ _ [ClientLoop]); try reflexivity.
    + cbn [callback_set]. symmetry. exact Hcb.
    + intros pin l [E|[]]. discriminate E.
Qed.

Lemma tick_led_only (fuel : nat) (w w' : World Env) :
  loop cred board fuel w = Done tt w' -> led_only board w w'.
Proof.
  assert (Tail : forall v : World Env,
            bind (button cred board) (fun _ => client_loop_ board) v =
              Done tt w' ->
            led_only board v w').
  { intros v Hrun. destruct (button_led_only v) as (v1 & Hb & Hl).
    unfold bind in Hrun. rewrite Hb in Hrun.
    apply (led_only_trans v v1 w'); [exact Hl|].
    apply client_loop_led_only. exact Hrun. }
  rewrite loop_split. cbv zeta.
  match goal with
  | |- (if _ then ?t ?v else _) = _ -> _ =>
      assert (Hhead : led_only board w v)
  end.
  { apply (led_only_calls _ _
             [ClientConnected (fst (client_connected (env w)))]);
      try reflexivity.
    intros pin l [E|[]]. discriminate E. }
  destruct (fst (client_connected (env w))).
  - intros Hrun. eapply led_only_trans; [exact Hhead | apply Tail; exact Hrun].
  - match goal with
    | |- context [reconnect cred fuel ?v] =>
        pose proof (reconnect_done_shape cred fuel v) as Hshape;
        destruct (reconnect cred fuel v) as [[] w1|w1|w1]
    end; try discriminate.
    intros Hrun.
    destruct (Hshape w1 eq_refl) as (n & rounds & Hr & Ht & Hp & Hc).
    destruct (rounds_accounting n rounds Hr)
      as (_ & _ & _ & _ & _ & _ & Hs & Hw).
    eapply led_only_trans; [exact Hhead|].
    eapply led_only_trans; [|apply Tail; exact Hrun].
    apply (led_only_calls _ _ (rounds ++ [ClientConnected true]));
      try assumption.
    + rewrite filter_app, Hs. reflexivity.
    + rewrite filter_app, (rounds_no_delivery cred n rounds Hr). reflexivity.
    + intros pin l Hin. apply in_app_or in Hin.
      destruct Hin as [Hin|[E|[]]]; [apply (Hw pin l Hin) | discriminate E].
Qed.

Lemma ticks_led_only (n fuel : nat) :
  forall w w' : World Env,
    ticks cred board n fuel w = Done tt w' -> led_only board w w'.
Proof.
  induction n as [|n IH]; intros w w' Hrun; cbn [ticks] in Hrun.
  - inversion Hrun. apply led_only_refl.
  - unfold bind in Hrun.
    destruct (loop cred board fuel w) as [[] w1|w1|w1] eqn:Hl;
      try discriminate.
    apply (led_only_trans w w1 w');
      [apply (tick_led_only fuel); exact Hl | apply IH; exact Hrun].
Qed.

(** X9. The ticks never call [setCallback]: after any number of them a
    callback is registered exactly when one was before.  So when none was
    (the connect in [setup_mqtt] failed), no message is ever handed to
    [callback], also after [reconnect] has brought the session up. *)
Theorem ticks_never_register_callback (n fuel : nat) (w w' : World Env) :
  ticks cred board n fuel w = Done tt w' ->
  callback_set w' = callback_set w /\
  exists delta : list Event,
    trace w' = trace w ++ delta /\
    filter is_set_callback delta = [] /\
    (callback_set w = false -> filter is_delivery delta = []).
Proof.
  intros Hrun.
  destruct (ticks_led_only n fuel w w' Hrun)
    as (Hc & _ & delta & Ht & Hs & _ & Hn).
  split; [exact Hc|]. exists delta. repeat split; assumption.
Qed.

(** X10. The ticks write no pin but the LED, under its two names
    [LED_BUILTIN] and [BUILTIN_LED]: every other pin, the button pin
    among them when it is not the LED pin, holds after any number of ticks
    what it held before. *)
Theorem ticks_write_only_the_led (n fuel : nat) (w w' : World Env) :
  ticks cred board n fuel w = Done tt w' ->
  (forall q : Z,
     q <> LED_BUILTIN board -> q <> BUILTIN_LED board ->
     pins w' q = pins w q) /\
  exists delta : list Event,
    trace w' = trace w ++ delta /\
    writes_within (LED_BUILTIN board) (BUILTIN_LED board) delta.
Proof.
  intros Hrun.
  destruct (ticks_led_only n fuel w w' Hrun)
    as (_ & Hp & delta & Ht & _ & Hw & _).
  split; [exact Hp|]. exists delta. split; assumption.
Qed.

Lemma effects_no_subscribe (d : list Event) :
  forallb is_callback_effect d = true -> subscribe_attempts d = [].
Proof.
  induction d as [|ev d IH]; [reflexivity|].
  simpl. intros Hd. apply andb_true_iff in Hd. destruct Hd as [Hev Hd].
  destruct ev; try discriminate; simpl; apply IH; exact Hd.
Qed.

(** X11. A tick that finds the session connected is short, however it
    ends: it waits 10 ms at most, publishes twice at most, connects once
    at most and never subscribes. *)
Theorem connected_tick_is_short (fuel : nat) (w : World Env) (e0 : Env) :
  client_connected (env w) = (true, e0) ->
  exists delta : list Event,
    trace (world_of (loop cred board fuel w)) = trace w ++ delta /\
    0 <= total_delay delta <= 10 /\
    (List.length (publish_attempts delta) <= 2)%nat /\
    (List.length (connect_attempts delta) <= 1)%nat /\
    subscribe_attempts delta = [].
Proof.
  intros Ec. rewrite loop_split. cbv zeta. rewrite Ec. cbn [fst snd].
  match goal with
  | |- context [bind _ _ ?v] =>
      destruct (button_frame v) as (w1 & edge & Hb & Ht & He & _)
  end.
  unfold bind. rewrite Hb.
  destruct (client_loop_effects board w1) as (d & Htd & Hd).
  destruct (edge_bounds edge He) as (B1 & _ & B3 & _ & B5 & B6 & _).
  destruct (effects_no_client_call d Hd) as (_ & Hpa & Hca & Hdl & _).
  pose proof (effects_no_subscribe d Hd) as Hsu.
  exists (ClientConnected true :: edge ++ ClientLoop :: d).
  split; [rewrite Htd, Ht; cbn [trace]; flat; reflexivity|].
  change (ClientConnected true :: edge ++ ClientLoop :: d)
    with ([ClientConnected true] ++ edge ++ [ClientLoop] ++ d).
  rewrite !total_delay_app, !publish_attempts_app, !connect_attempts_app,
    !subscribe_attempts_app, Hpa, Hca, Hsu, B5.
  assert (Hd0 : total_delay d = 0) by (unfold total_delay; rewrite Hdl; reflexivity).
  rewrite Hd0.
  change (total_delay [ClientConnected true]) with 0.
  change (total_delay [ClientLoop]) with 0.
  cbn [publish_attempts connect_attempts subscribe_attempts app].
  rewrite !app_nil_r.
  repeat split; lia.
Qed.

End MoreFacts.

(** ** The further properties at work *)


Lemma callback_echoes_message_witness :
  exists w',
    callback board0 "inTopic" [x31; x30] 1 (boot tt) = Done tt w' /\
    trace w' =
      [SerialPrint (PStr "Message arrived ["); SerialPrint (PStr "inTopic");
       SerialPrint (PStr "] "); SerialPrint (PChar x31); SerialPrintln None;
       DigitalWrite 2 LOW].
Proof.
  destruct (callback_echoes_message board0 (mkInbound "inTopic" [x31; x30] 1)
              (boot tt))
    as (w' & Hrun & Ht & _).
  - split; [simpl; lia|]. split; [unfold INT_MAX; simpl; lia | discriminate].
  - exists w'. split; [exact Hrun | exact Ht].
Defined.

Lemma poll_last_message_wins_witness :
  exists w',
    client_loop_ board0 (booted burst) = Done tt w' /\
    pin_writes 2 (trace w') = [LOW; HIGH; LOW] /\
    pins w' 2 = Some LOW.
Proof.
  destruct (poll_last_message_wins (H := Scripted) board0 (booted burst)
              (fst (client_poll burst)) (snd (client_poll burst)))
    as (w' & d & Hrun & Ht & _ & Hw & _ & Hlast).
  - reflexivity.
  - reflexivity.
  - repeat constructor; simpl; try lia; try discriminate;
      unfold INT_MAX; lia.
  - exists w'. split; [exact Hrun|]. split.
    + rewrite Ht. cbn [trace booted app pin_writes]. exact Hw.
    + apply (Hlast [mkInbound "inTopic" [x31] 1;
                    mkInbound "inTopic" [x30; x78] 2]
               (mkInbound "inTopic" [x31; x00] 1)).
      reflexivity.
Defined.

Lemma idle_tick_is_quiet_witness :
  exists w',
    loop cred0 board0 1 (booted at_rest) = Done tt w' /\
    List.length (trace w') = 5%nat.
Proof.
  eexists. split.
  - apply (idle_tick_is_quiet (H := Scripted) cred0 board0 1 (booted at_rest)
             false (snd (client_connected at_rest))
             (snd (client_connected at_rest))
             (snd (client_connected at_rest))
             (snd (client_connected at_rest))
             (snd (client_connected at_rest))); reflexivity.
  - reflexivity.
Defined.

Lemma reconnect_accounting_witness :
  exists delta,
    trace (world_of (reconnect cred0 3 (boot session_second))) = delta /\
    List.length (publish_attempts delta) = 1%nat /\
    total_delay delta = 5000.
Proof.
  destruct (reconnect_accounting (H := Scripted) cred0 3
              (boot session_second)
              (world_of (reconnect cred0 3 (boot session_second))))
    as (delta & Ht & Hp & _ & _ & _ & Hd & _).
  - vm_compute. reflexivity.
  - exists delta. split; [exact Ht|].
    cbn [trace boot app] in Ht. rewrite <- Ht.
    split; vm_compute; reflexivity.
Defined.

Lemma setup_lights_off_then_connects_once_witness :
  exists w',
    setup cred0 board0 3 (boot boot_up) = Done tt w' /\
    delays (trace w') = [500] /\
    pins w' 2 = Some HIGH /\
    callback_set w' = true.
Proof.
  assert (Hrun : setup cred0 board0 3 (boot boot_up) =
                 Done tt (world_of (setup cred0 board0 3 (boot boot_up))))
    by (vm_compute; reflexivity).
  destruct (setup_lights_off_then_connects_once (H := Scripted) cred0 board0
              3 _ _ Hrun)
    as (n & ok & polls & before & after & _ & _ & _ & _ & _ & _ & _ & _ & _
        & _ & _ & Hp & _).
  exists (world_of (setup cred0 board0 3 (boot boot_up))).
  split; [exact Hrun|]. split; [vm_compute; reflexivity|].
  split; [rewrite Hp; reflexivity|].
  vm_compute. reflexivity.
Defined.

Lemma ticks_never_register_callback_witness :
  exists w' delta,
    ticks cred0 board0 1 2 after_failed_setup = Done tt w' /\
    trace w' = trace after_failed_setup ++ delta /\
    In (ClientConnect (ConnectId "esp8266") true) (trace w') /\
    filter is_delivery delta = [].
Proof.
  assert (Hrun : ticks cred0 board0 1 2 after_failed_setup =
                 Done tt (world_of (ticks cred0 board0 1 2 after_failed_setup)))
    by (vm_compute; reflexivity).
  destruct (ticks_never_register_callback (H := Scripted) cred0 board0 1 2
              _ _ Hrun) as (_ & delta & Ht & _ & Hn).
  exists (world_of (ticks cred0 board0 1 2 after_failed_setup)), delta.
  split; [exact Hrun|]. split; [exact Ht|]. split.
  - vm_compute. tauto.
  - apply Hn. vm_compute. reflexivity.
Defined.

Lemma ticks_write_only_the_led_witness :
  exists w',
    ticks cred0 board0 2 1 (booted two_ticks) = Done tt w' /\
    pins w' 13 = None.
Proof.
  assert (Hrun : ticks cred0 board0 2 1 (booted two_ticks) =
                 Done tt (world_of (ticks cred0 board0 2 1 (booted two_ticks))))
    by (vm_compute; reflexivity).
  destruct (ticks_write_only_the_led (H := Scripted) cred0 board0 2 1
              _ _ Hrun) as (Hp & _).
  exists (world_of (ticks cred0 board0 2 1 (booted two_ticks))).
  split; [exact Hrun|].
  rewrite Hp; [reflexivity | discriminate | discriminate].
Defined.

Lemma connected_tick_is_short_witness :
  exists delta,
    trace (world_of (loop cred0 board0 1 (booted active_pressed_lost))) =
      delta /\
    total_delay delta = 10.
Proof.
  destruct (connected_tick_is_short (H := Scripted) cred0 board0 1
              (booted active_pressed_lost)
              (snd (client_connected active_pressed_lost)))
    as (delta & Ht & _); [reflexivity|].
  exists delta. split; [exact Ht|].
  cbn [trace booted app] in Ht. rewrite <- Ht. vm_compute. reflexivity.
Defined.
